(** * MjapiClient: the serialized request pipeline of [bot/mjapi/mjapi.py]

    A shallow embedding of the MJAPI wrapper.  Every method of the Python
    class is a program in a small free monad whose events are the effects the
    class performs: taking and dropping [self._lock], one round trip on
    [self.session], reading [self] and writing [self.token] and
    [self.headers].  Two semantics are given to these programs: a
    single-caller interpreter against a script of server replies, and an
    interleaving step relation for several caller threads. *)

From stdpp Require Import base option list gmap strings numbers pretty.
From Stdlib Require Import ZArith QArith Lia.

#[local] Set Warnings "-register-all".

Open Scope Z_scope.
Open Scope string_scope.

(** ** Python values *)

(** What [Response.json()] yields, and what callers hand in as arguments.
    A [dict] keeps its items in insertion order; decoded JSON objects have
    pairwise distinct keys.  A float is carried by its literal, nothing is
    ever computed with it. *)
Inductive pyval : Type :=
| PNone
| PBool (b : bool)
| PInt (n : Z)
| PFloat (lit : string)
| PStr (s : string)
| PList (xs : list pyval)
| PDict (items : list (string * pyval)).

(** An f-string, kept as its pieces: literal text and interpolated values. *)
Inductive piece : Type :=
| Lit (s : string)
| Fmt (v : pyval).

Definition fstring := list piece.

(** [str(v)] where it needs no [repr]: the scalars of JSON. *)
Definition py_str (v : pyval) : option string :=
  match v with
  | PNone => Some "None"
  | PBool true => Some "True"
  | PBool false => Some "False"
  | PInt n => Some (pretty n)
  | PStr s => Some s
  | PFloat _ | PList _ | PDict _ => None
  end.

Fixpoint render (f : fstring) : option string :=
  match f with
  | [] => Some ""
  | Lit s :: f' => String.append s <$> render f'
  | Fmt v :: f' =>
      match py_str v, render f' with
      | Some s, Some t => Some (s ++ t)
      | _, _ => None
      end
  end.

(** ** Exceptions *)

(** The exception classes the module raises or lets through.  A
    [RequestException] is anything [requests] raises for a failed round trip
    (timeout, connection error); [JSONDecodeError] is the one [Response.json()]
    raises, a subclass of [RequestException]. *)
Inductive exn : Type :=
| RequestException (what : string)
| JSONDecodeError
| RuntimeError (msg : fstring)
| ValueError (msg : fstring)
| KeyError (key : string)
| IndexError
| TypeError (what : string).

(** [except requests.RequestException] *)
Definition is_RequestException (e : exn) : bool :=
  match e with
  | RequestException _ | JSONDecodeError => true
  | _ => false
  end.

(** ** Requests and responses *)

Inductive method : Type := GET | POST.

Record Request : Type := mkRequest {
  req_method : method;
  req_url : string;
  req_json : option pyval;
  req_headers : gmap string fstring;
  req_timeout : Q
}.

(** A [requests.Response]: [decoded] is the JSON value of a non-empty
    [content], absent when [content] is not JSON. *)
Record Response : Type := mkResponse {
  status_code : Z;
  content : list Byte.byte;
  text : string;
  decoded : option pyval
}.

(** [Response.ok]: [raise_for_status()] would not raise, which it does for
    the statuses 400 to 599. *)
Definition ok (res : Response) : bool :=
  negb ((400 <=? status_code res)%Z && (status_code res <? 600)%Z).

(** truth value of [res.content] *)
Definition has_content (res : Response) : bool :=
  match content res with
  | [] => false
  | _ :: _ => true
  end.

(** What a round trip gives back: a response, or the exception of the
    transport. *)
Definition reply : Type := exn + Response.

(** ** The client object *)

Record MjapiClient : Type := mkClient {
  base_url : string;
  timeout : Q;
  token : pyval;
  headers : gmap string fstring
}.

(** [__init__] *)
Definition init (base_url : string) (timeout : Q) : MjapiClient :=
  {| base_url := base_url; timeout := timeout; token := PNone; headers := ∅ |}.

(** ** Programs *)

Inductive event : Type -> Type :=
| LockAcquire : event unit
| LockRelease : event unit
| SessionRequest (rq : Request) : event reply
| SessionClose : event unit
| ReadSelf : event MjapiClient
| WriteToken (t : pyval) : event unit
| WriteHeader (name : string) (value : fstring) : event unit.

Inductive prog (A : Type) : Type :=
| Ret (a : A)
| Raise (e : exn)
| Vis (X : Type) (ev : event X) (k : X -> prog A).

Arguments Ret {A} a.
Arguments Raise {A} e.
Arguments Vis {A X} ev k.

Fixpoint bind {A B : Type} (p : prog A) (f : A -> prog B) : prog B :=
  match p with
  | Ret a => f a
  | Raise e => Raise e
  | Vis ev k => Vis ev (fun x => bind (k x) f)
  end.

Definition trigger {X : Type} (ev : event X) : prog X := Vis ev Ret.

Declare Scope prog_scope.
Delimit Scope prog_scope with prog.
Notation "x <- p ;; q" := (bind p (fun x => q))
  (at level 100, p at next level, right associativity) : prog_scope.
Notation "p ;; q" := (bind p (fun _ => q))
  (at level 100, right associativity) : prog_scope.
Open Scope prog_scope.

(** [try: p except ... as e: h e]; a handler re-raises what its [except]
    clause does not match. *)
Fixpoint try_except {A : Type} (p : prog A) (h : exn -> prog A) : prog A :=
  match p with
  | Ret a => Ret a
  | Raise e => h e
  | Vis ev k => Vis ev (fun x => try_except (k x) h)
  end.

(** The exit of [with self._lock:], run on both ways out of the body. *)
Fixpoint releasing {A : Type} (p : prog A) : prog A :=
  match p with
  | Ret a => Vis LockRelease (fun _ => Ret a)
  | Raise e => Vis LockRelease (fun _ => Raise e)
  | Vis ev k => Vis ev (fun x => releasing (k x))
  end.

(** [with self._lock: body] *)
Definition with_lock {A : Type} (body : prog A) : prog A :=
  Vis LockAcquire (fun _ => releasing body).

(** ** Python operators on values *)

Fixpoint dict_get (k : string) (items : list (string * pyval)) : option pyval :=
  match items with
  | [] => None
  | (k', v) :: rest => if String.eqb k k' then Some v else dict_get k rest
  end.

Definition is_str (k : string) (v : pyval) : bool :=
  match v with
  | PStr s => String.eqb s k
  | _ => false
  end.

Fixpoint substring_of (k s : string) : bool :=
  String.prefix k s ||
  match s with
  | EmptyString => false
  | String _ s' => substring_of k s'
  end.

(** [k in v] for a string [k] *)
Definition py_in (k : string) (v : pyval) : prog bool :=
  match v with
  | PDict items => Ret (bool_decide (is_Some (dict_get k items)))
  | PList xs => Ret (existsb (is_str k) xs)
  | PStr s => Ret (substring_of k s)
  | PNone => Raise (TypeError "argument of type 'NoneType' is not iterable")
  | PBool _ => Raise (TypeError "argument of type 'bool' is not iterable")
  | PInt _ => Raise (TypeError "argument of type 'int' is not iterable")
  | PFloat _ => Raise (TypeError "argument of type 'float' is not iterable")
  end.

(** [v[k]] for a string [k] *)
Definition py_getitem (v : pyval) (k : string) : prog pyval :=
  match v with
  | PDict items =>
      match dict_get k items with
      | Some x => Ret x
      | None => Raise (KeyError k)
      end
  | PList _ => Raise (TypeError "list indices must be integers or slices, not str")
  | PStr _ => Raise (TypeError "string indices must be integers, not 'str'")
  | PNone => Raise (TypeError "'NoneType' object is not subscriptable")
  | PBool _ => Raise (TypeError "'bool' object is not subscriptable")
  | PInt _ => Raise (TypeError "'int' object is not subscriptable")
  | PFloat _ => Raise (TypeError "'float' object is not subscriptable")
  end.

(** [xs[-1]] on a list *)
Definition py_last (xs : list pyval) : prog pyval :=
  match last xs with
  | Some x => Ret x
  | None => Raise IndexError
  end.

(** truth value of a [raise_error] argument: [True], [False] or [None] *)
Definition truthy (flag : option bool) : bool :=
  match flag with
  | Some b => b
  | None => false
  end.

(** [Response.json()] *)
Definition json (res : Response) : prog pyval :=
  if has_content res then
    match decoded res with
    | Some v => Ret v
    | None => Raise JSONDecodeError
    end
  else Raise JSONDecodeError.

(** ** The methods of [MjapiClient] *)

(** [self.session.post(url, json=json, headers=self.headers, timeout=self.timeout)] *)
Definition session_post (url : string) (body : option pyval) : prog Response :=
  self <- trigger ReadSelf ;;
  r <- trigger (SessionRequest (mkRequest POST url body (headers self) (timeout self))) ;;
  match r with
  | inl e => Raise e
  | inr res => Ret res
  end.

(** [self.session.get(url, headers=self.headers, timeout=self.timeout)] *)
Definition session_get (url : string) : prog Response :=
  self <- trigger ReadSelf ;;
  r <- trigger (SessionRequest (mkRequest GET url None (headers self) (timeout self))) ;;
  match r with
  | inl e => Raise e
  | inr res => Ret res
  end.

Definition close : prog pyval :=
  trigger SessionClose ;; Ret PNone.

Definition set_bearer_token (t : pyval) : prog unit :=
  trigger (WriteToken t) ;;
  trigger (WriteHeader "Authorization" [Lit "Bearer "; Fmt t]).

Definition _process_res (res : Response) (raise_error : option bool) : prog pyval :=
  if ok res then
    (if has_content res then json res else Ret PNone)
  else
    j <- json res ;;
    has_error <- py_in "error" j ;;
    if has_error then
      j' <- json res ;;
      message <- py_getitem j' "error" ;;
      if truthy raise_error then
        Raise (RuntimeError [Lit "Error in response "; Fmt (PInt (status_code res));
                             Lit ": "; Fmt message])
      else json res
    else
      Raise (RuntimeError [Lit "Unexpected API response "; Fmt (PInt (status_code res));
                           Lit ": "; Fmt (PStr (text res))]).

(** the [except requests.RequestException as e] clause of both helpers *)
Definition on_request_exception (raise_error : option bool) (e : exn) : prog pyval :=
  if is_RequestException e then
    (if truthy raise_error then Raise e else Ret PNone)
  else Raise e.

Definition post_req (path : string) (body : option pyval) (raise_error : option bool)
  : prog pyval :=
  try_except
    (self <- trigger ReadSelf ;;
     let full_url := base_url self ++ path in
     res <- with_lock (session_post full_url body) ;;
     _process_res res raise_error)
    (on_request_exception raise_error).

Definition get_req (path : string) (raise_error : option bool) : prog pyval :=
  try_except
    (self <- trigger ReadSelf ;;
     let full_url := base_url self ++ path in
     res <- with_lock (session_get full_url) ;;
     _process_res res raise_error)
    (on_request_exception raise_error).

Definition register (name : pyval) : prog pyval :=
  let path := "/user/register" in
  let data := PDict [("name", name)] in
  post_req path (Some data) (Some true).

(** the tail shared by [login] and [trial] *)
Definition save_id (res_json : pyval) : prog pyval :=
  has_id <- py_in "id" res_json ;;
  if has_id then
    t <- py_getitem res_json "id" ;;
    trigger (WriteToken t) ;;
    self <- trigger ReadSelf ;;
    set_bearer_token (token self) ;;
    Ret PNone
  else Raise (RuntimeError [Lit "Error login: "; Fmt res_json]).

Definition login (name secret : pyval) : prog pyval :=
  let path := "/user/login" in
  let data := PDict [("name", name); ("secret", secret)] in
  res_json <- post_req path (Some data) (Some true) ;;
  save_id res_json.

Definition trial : prog pyval :=
  let path := "/user/trial" in
  let data := PDict [("code", PStr "FREE_TRIAL_SPONSORED_BY_MJAPI_DiscordID_9ns4esyx")] in
  res_json <- post_req path (Some data) (Some true) ;;
  save_id res_json.

Definition set_temp_user (t : pyval) : prog pyval :=
  trigger (WriteToken t) ;;
  self <- trigger ReadSelf ;;
  set_bearer_token (token self) ;;
  Ret PNone.

Definition get_user_info : prog pyval :=
  get_req "/user" (Some true).

Definition logout : prog pyval :=
  post_req "/user/logout" None (Some true).

Definition list_models : prog pyval :=
  res_json <- get_req "/mjai/list" (Some true) ;;
  py_getitem res_json "models".

Definition get_usage : prog pyval :=
  res_json <- get_req "/mjai/usage" None ;;
  py_getitem res_json "used".

Definition get_limit : prog pyval :=
  get_req "/mjai/limit" None.

Definition start_bot (id bound model : pyval) : prog pyval :=
  let data := PDict [("id", id); ("bound", bound); ("model", model)] in
  post_req "/mjai/start" (Some data) (Some true).

Definition _post_act (path : string) (_seq : pyval) (actions : pyval) : prog pyval :=
  response <- with_lock (self <- trigger ReadSelf ;;
                         session_post (base_url self ++ path) (Some actions)) ;;
  if has_content response then
    response_json <- json response ;;
    if (status_code response =? 200)%Z then
      has_act <- py_in "act" response_json ;;
      if has_act then py_getitem response_json "act" else Ret PNone
    else
      has_error <- py_in "error" response_json ;;
      if has_error then Ret response_json
      else Raise (ValueError [Lit "status code "; Fmt (PInt (status_code response));
                              Lit "; "; Fmt (PStr (text response))])
  else if negb (status_code response =? 200)%Z then
    Raise (ValueError [Lit "status code "; Fmt (PInt (status_code response))])
  else Ret PNone.

Definition act (seq data : pyval) : prog pyval :=
  let path := "/mjai/act" in
  let data := PDict [("seq", seq); ("data", data)] in
  _post_act path seq data.

Definition batch (actions : list pyval) : prog pyval :=
  if (length actions =? 0)%nat then Ret PNone
  else
    l <- py_last actions ;;
    seq <- py_getitem l "seq" ;;
    let path := "/mjai/batch" in
    _post_act path seq (PList actions).

Definition stop_bot : prog pyval :=
  post_req "/mjai/stop" None (Some true).

(** ** One caller: running a program against a script of replies *)

(** What an observer of the lock and of the connection sees. *)
Inductive obs : Type :=
| Acquired
| Released
| Sent (rq : Request)
| Closed.

(** The client object, its lock, the replies the transport is going to give
    (in order), and what has been observed so far (oldest first). *)
Record world : Type := mkWorld {
  self : MjapiClient;
  locked : bool;
  wire : list reply;
  log : list obs
}.

Inductive outcome (A : Type) : Type :=
| Returned (a : A)
| Raised (e : exn)
| Blocked.

Arguments Returned {A} a.
Arguments Raised {A} e.
Arguments Blocked {A}.

Definition note (o : obs) (w : world) : world :=
  mkWorld (self w) (locked w) (wire w) (log w ++ [o]).

Definition with_self (c : MjapiClient) (w : world) : world :=
  mkWorld c (locked w) (wire w) (log w).

(** One effect.  Taking a held lock blocks.  Dropping the lock frees it; the
    methods drop it only on the way out of a [with self._lock:] block, holding
    it.  A round trip consumes the next reply of the script; with none left
    the call runs into its timeout. *)
Definition perform {X : Type} (ev : event X) (w : world) : option (X * world) :=
  match ev in event X return option (X * world) with
  | LockAcquire =>
      if locked w then None
      else Some (tt, note Acquired (mkWorld (self w) true (wire w) (log w)))
  | LockRelease =>
      Some (tt, note Released (mkWorld (self w) false (wire w) (log w)))
  | SessionRequest rq =>
      match wire w with
      | r :: rest => Some (r, note (Sent rq) (mkWorld (self w) (locked w) rest (log w)))
      | [] => Some (inl (RequestException "Timeout"), note (Sent rq) w)
      end
  | SessionClose => Some (tt, note Closed w)
  | ReadSelf => Some (self w, w)
  | WriteToken t =>
      Some (tt, with_self (mkClient (base_url (self w)) (timeout (self w)) t
                                    (headers (self w))) w)
  | WriteHeader name value =>
      Some (tt, with_self (mkClient (base_url (self w)) (timeout (self w)) (token (self w))
                                    (<[name := value]> (headers (self w)))) w)
  end.

Fixpoint run {A : Type} (p : prog A) (w : world) : world * outcome A :=
  match p with
  | Ret a => (w, Returned a)
  | Raise e => (w, Raised e)
  | Vis ev k =>
      match perform ev w with
      | Some (x, w') => run (k x) w'
      | None => (w, Blocked)
      end
  end.

(** A call on client [c] with the lock free and nothing observed yet. *)
Definition call {A : Type} (c : MjapiClient) (script : list reply) (p : prog A)
  : world * outcome A :=
  run p (mkWorld c false script []).

(** ** The error taxonomy, as the [raise] statements spell it *)

Definition ApiError (status : Z) (message : pyval) : exn :=
  RuntimeError [Lit "Error in response "; Fmt (PInt status); Lit ": "; Fmt message].

Definition UnexpectedResponse (status : Z) (body : string) : exn :=
  RuntimeError [Lit "Unexpected API response "; Fmt (PInt status); Lit ": "; Fmt (PStr body)].

Definition AuthenticationError (payload : pyval) : exn :=
  RuntimeError [Lit "Error login: "; Fmt payload].

Definition ProtocolError (status : Z) (raw : option string) : exn :=
  match raw with
  | None => ValueError [Lit "status code "; Fmt (PInt status)]
  | Some t => ValueError [Lit "status code "; Fmt (PInt status); Lit "; "; Fmt (PStr t)]
  end.

(** ** The public operations, and a caller making several of them *)

Inductive op : Type :=
| OpRegister (name : pyval)
| OpLogin (name secret : pyval)
| OpTrial
| OpSetTempUser (t : pyval)
| OpGetUserInfo
| OpLogout
| OpListModels
| OpGetUsage
| OpGetLimit
| OpStartBot (id bound model : pyval)
| OpStopBot
| OpAct (seq data : pyval)
| OpBatch (actions : list pyval)
| OpClose.

Definition method_of (o : op) : prog pyval :=
  match o with
  | OpRegister name => register name
  | OpLogin name secret => login name secret
  | OpTrial => trial
  | OpSetTempUser t => set_temp_user t
  | OpGetUserInfo => get_user_info
  | OpLogout => logout
  | OpListModels => list_models
  | OpGetUsage => get_usage
  | OpGetLimit => get_limit
  | OpStartBot id bound model => start_bot id bound model
  | OpStopBot => stop_bot
  | OpAct seq data => act seq data
  | OpBatch actions => batch actions
  | OpClose => close
  end.

(** the operations that install a bearer token *)
Definition sets_credentials (o : op) : bool :=
  match o with
  | OpLogin _ _ | OpTrial | OpSetTempUser _ => true
  | _ => false
  end.

(** One caller making the calls of [os] in turn, going on to the next call
    whether the last one returned or raised. *)
Fixpoint session (os : list op) (w : world) : world :=
  match os with
  | [] => w
  | o :: os' => session os' (run (method_of o) w).1
  end.

(** What a call that installs no credentials leaves behind: the client as
    it was, the lock free, and on the connection only requests that carry the
    client's headers. *)
Definition frames (w w' : world) : Prop :=
  self w' = self w /\ locked w' = false /\
  exists tr, log w' = (log w ++ tr)%list /\
             forall rq, Sent rq ∈ tr -> req_headers rq = headers (self w).

(** ** Several callers on one client *)

(** A caller thread is inside a method, or blocked in a round trip that has
    been sent and not yet answered. *)
Inductive activity : Type :=
| Running (p : prog pyval)
| InFlight (rq : Request) (k : reply -> prog pyval).

(** A thread and the calls it still has to make. *)
Record thread : Type := mkThread {
  doing : activity;
  todo : list op
}.

(** The client object and its lock, shared by the threads. *)
Record system : Type := mkSystem {
  shared : MjapiClient;
  lock_held : bool;
  threads : list thread
}.

(** One step of one thread.  Taking the lock is possible only while it is
    free.  A round trip is two steps, the request going out and the reply (any
    response, or any exception of the transport, a timeout among them) coming
    in.  A thread whose call has returned or raised goes on to its next
    call. *)
Inductive thread_step :
  MjapiClient -> bool -> thread -> MjapiClient -> bool -> thread -> Prop :=
| ts_returned c lk v o os :
    thread_step c lk (mkThread (Running (Ret v)) (o :: os))
                c lk (mkThread (Running (method_of o)) os)
| ts_raised c lk e o os :
    thread_step c lk (mkThread (Running (Raise e)) (o :: os))
                c lk (mkThread (Running (method_of o)) os)
| ts_acquire c k os :
    thread_step c false (mkThread (Running (Vis LockAcquire k)) os)
                c true (mkThread (Running (k tt)) os)
| ts_release c lk k os :
    thread_step c lk (mkThread (Running (Vis LockRelease k)) os)
                c false (mkThread (Running (k tt)) os)
| ts_send c lk rq k os :
    thread_step c lk (mkThread (Running (Vis (SessionRequest rq) k)) os)
                c lk (mkThread (InFlight rq k) os)
| ts_receive c lk rq k r os :
    thread_step c lk (mkThread (InFlight rq k) os)
                c lk (mkThread (Running (k r)) os)
| ts_close c lk k os :
    thread_step c lk (mkThread (Running (Vis SessionClose k)) os)
                c lk (mkThread (Running (k tt)) os)
| ts_read c lk k os :
    thread_step c lk (mkThread (Running (Vis ReadSelf k)) os)
                c lk (mkThread (Running (k c)) os)
| ts_write_token c lk t k os :
    thread_step c lk (mkThread (Running (Vis (WriteToken t) k)) os)
                (mkClient (base_url c) (timeout c) t (headers c)) lk
                (mkThread (Running (k tt)) os)
| ts_write_header c lk name value k os :
    thread_step c lk (mkThread (Running (Vis (WriteHeader name value) k)) os)
                (mkClient (base_url c) (timeout c) (token c) (<[name := value]> (headers c))) lk
                (mkThread (Running (k tt)) os).

(** Any thread may take the next step. *)
Inductive step : system -> system -> Prop :=
| step_thread c lk ts1 t ts2 c' lk' t' :
    thread_step c lk t c' lk' t' ->
    step (mkSystem c lk (ts1 ++ t :: ts2)) (mkSystem c' lk' (ts1 ++ t' :: ts2)).

(** The threads before their first call, each with its list of calls. *)
Definition start (c : MjapiClient) (workloads : list (list op)) : system :=
  mkSystem c false (map (fun os => mkThread (Running (Ret PNone)) os) workloads).

Definition in_flight (t : thread) : bool :=
  match doing t with
  | InFlight _ _ => true
  | Running _ => false
  end.

Fixpoint count {A : Type} (f : A -> bool) (l : list A) : nat :=
  match l with
  | [] => 0%nat
  | x :: l' => (Nat.b2n (f x) + count f l')%nat
  end.

(** the number of requests sent and not yet answered *)
Definition requests_in_flight (s : system) : nat := count in_flight (threads s).

(** What an event asks of the lock, and what it leaves: the lock is taken
    only when not held by the caller, dropped only when held, and the
    connection is used only while held. *)
Definition event_rule {X : Type} (ev : event X) (held : bool)
  : (X -> bool -> Prop) -> Prop :=
  match ev in event X return (X -> bool -> Prop) -> Prop with
  | LockAcquire => fun post => held = false /\ post tt true
  | LockRelease => fun post => held = true /\ post tt false
  | SessionRequest _ => fun post => held = true /\ forall r, post r true
  | SessionClose => fun post => post tt held
  | ReadSelf => fun post => forall c, post c held
  | WriteToken _ => fun post => post tt held
  | WriteHeader _ _ => fun post => post tt held
  end.

(** [bracketed held final p]: started with the lock [held] by the caller,
    every path through [p], whatever the replies, obeys [event_rule] and
    ends, returning or raising, with the lock in state [final]. *)
Fixpoint bracketed {A : Type} (held final : bool) (p : prog A) : Prop :=
  match p with
  | Ret _ | Raise _ => held = final
  | Vis ev k => event_rule ev held (fun x held' => bracketed held' final (k x))
  end.

(** [thread_ok held t]: thread [t], holding the lock or not as [held] says,
    is at a point from which it keeps to the discipline. *)
Definition thread_ok (held : bool) (t : thread) : Prop :=
  match doing t with
  | Running p => bracketed held false p
  | InFlight _ k => held = true /\ forall r, bracketed true false (k r)
  end.

(** The invariant of the system: some assignment of the lock to the threads
    accounts for every thread, and it gives the lock to one thread when the
    lock is held and to none when it is free. *)
Definition lock_invariant (s : system) : Prop :=
  exists holders : list bool,
    Forall2 thread_ok holders (threads s) /\
    count id holders = Nat.b2n (lock_held s).

(** The token and the [Authorization] header tell the same story: nothing
    installed yet, or the one header [set_bearer_token] writes for the token. *)
Definition credentials_agree (c : MjapiClient) : Prop :=
  (token c = PNone /\ headers c = ∅) \/
  headers c = {[ "Authorization" := [Lit "Bearer "; Fmt (token c)] ]}.

(** The [seq] that [batch] reads off its argument, when it can. *)
Definition batch_seq (actions : list pyval) : option pyval :=
  match last actions with
  | Some (PDict items) => dict_get "seq" items
  | _ => None
  end.

(** Where a call goes: HTTP method, path and JSON body; nothing for the
    calls that stay off the wire. *)
Definition wire_request (o : op) : option (method * string * option pyval) :=
  match o with
  | OpRegister name => Some (POST, "/user/register", Some (PDict [("name", name)]))
  | OpLogin name secret =>
      Some (POST, "/user/login", Some (PDict [("name", name); ("secret", secret)]))
  | OpTrial =>
      Some (POST, "/user/trial",
            Some (PDict [("code", PStr "FREE_TRIAL_SPONSORED_BY_MJAPI_DiscordID_9ns4esyx")]))
  | OpSetTempUser _ => None
  | OpGetUserInfo => Some (GET, "/user", None)
  | OpLogout => Some (POST, "/user/logout", None)
  | OpListModels => Some (GET, "/mjai/list", None)
  | OpGetUsage => Some (GET, "/mjai/usage", None)
  | OpGetLimit => Some (GET, "/mjai/limit", None)
  | OpStartBot id bound model =>
      Some (POST, "/mjai/start", Some (PDict [("id", id); ("bound", bound); ("model", model)]))
  | OpStopBot => Some (POST, "/mjai/stop", None)
  | OpAct seq data => Some (POST, "/mjai/act", Some (PDict [("seq", seq); ("data", data)]))
  | OpBatch actions =>
      match batch_seq actions with
      | Some _ => Some (POST, "/mjai/batch", Some (PList actions))
      | None => None
      end
  | OpClose => None
  end.

(** the calls that hand back what [post_req] or [get_req] returned *)
Definition returns_raw (o : op) : bool :=
  match o with
  | OpRegister _ | OpGetUserInfo | OpLogout | OpGetLimit | OpStartBot _ _ _ | OpStopBot => true
  | _ => false
  end.

(** a decoded JSON value that is neither object, array nor string *)
Definition is_scalar (v : pyval) : bool :=
  match v with
  | PNone | PBool _ | PInt _ | PFloat _ => true
  | PStr _ | PList _ | PDict _ => false
  end.

(** A thread is finished when its last call has returned or raised. *)
Definition finished (t : thread) : bool :=
  match doing t, todo t with
  | Running (Ret _), [] => true
  | Running (Raise _), [] => true
  | _, _ => false
  end.

(** A thread is between calls when it is not inside a method. *)
Definition between_calls (t : thread) : bool :=
  match doing t with
  | Running (Ret _) | Running (Raise _) => true
  | _ => false
  end.

(** ** Stub answers *)

Definition dquote : string := String (Ascii.ascii_of_nat 34) EmptyString.

(** The text a stub server sends for a JSON value (strings without escapes). *)
Fixpoint dumps (v : pyval) : string :=
  match v with
  | PNone => "null"
  | PBool true => "true"
  | PBool false => "false"
  | PInt n => pretty n
  | PFloat lit => lit
  | PStr s => dquote ++ s ++ dquote
  | PList xs =>
      "[" ++ (fix elems (xs : list pyval) : string :=
                match xs with
                | [] => ""
                | [x] => dumps x
                | x :: rest => dumps x ++ ", " ++ elems rest
                end) xs ++ "]"
  | PDict items =>
      "{" ++ (fix members (items : list (string * pyval)) : string :=
                match items with
                | [] => ""
                | [(k, x)] => dquote ++ k ++ dquote ++ ": " ++ dumps x
                | (k, x) :: rest => dquote ++ k ++ dquote ++ ": " ++ dumps x ++ ", " ++ members rest
                end) items ++ "}"
  end.

Definition stub (status : Z) (v : pyval) : Response :=
  mkResponse status (String.list_byte_of_string (dumps v)) (dumps v) (Some v).

Definition stub_empty (status : Z) : Response :=
  mkResponse status [] "" None.

Definition demo : MjapiClient := init "https://mjapi.example" (5 # 1).

(** the reaction of P3 in the specification *)
Definition dahai : pyval := PDict [("type", PStr "dahai"); ("pai", PStr "1m")].

(** ** The action-query path *)

(** The two callers of [_post_act], when they get as far as the wire: [act]
    always does, [batch] does when the last envelope of a non-empty list is a
    dict with a [seq]. *)
Inductive action_query : prog pyval -> Prop :=
| aq_act (seq data : pyval) : action_query (act seq data)
| aq_batch (actions : list pyval) (items : list (string * pyval)) (seq : pyval) :
    last actions = Some (PDict items) ->
    dict_get "seq" items = Some seq ->
    action_query (batch actions).

Lemma batch_unfold (actions : list pyval) (items : list (string * pyval)) (seq : pyval) :
  last actions = Some (PDict items) ->
  dict_get "seq" items = Some seq ->
  batch actions = _post_act "/mjai/batch" seq (PList actions).
Proof.
  intros Hl Hs. unfold batch.
  destruct actions as [|a actions]; [discriminate|].
  cbn [length Nat.eqb]. unfold py_last. rewrite Hl. cbn [bind py_getitem].
  rewrite Hs. reflexivity.
Qed.

Lemma action_query_post (q : prog pyval) :
  action_query q -> exists path seq body, q = _post_act path seq body.
Proof.
  intros [seq data|actions items seq Hl Hs].
  - eexists _, _, _. reflexivity.
  - eexists _, _, _. eapply batch_unfold; eassumption.
Qed.

Lemma has_content_nil (r : Response) : content r = [] -> has_content r = false.
Proof. unfold has_content. intros ->. reflexivity. Qed.

Lemma has_content_cons (r : Response) : content r <> [] -> has_content r = true.
Proof. unfold has_content. destruct (content r); congruence. Qed.

(** Unfolds a call down to the tests on the response. *)
Ltac step_call :=
  unfold call, _post_act, post_req, get_req, _process_res, on_request_exception,
    save_id, set_bearer_token, json; cbn.

(** C1, as the code has it.  On status 200 the action query returns [None]
    for an empty body and the value under [act] when the JSON object in the
    body has that key; it returns [None] when the object has no such key, and
    likewise on any other decoded body on which the test ['act' in body]
    comes out false (an array without the string, a string without the
    substring); this for [act] and for a [batch] that reaches the wire. *)
Theorem action_query_success (c : MjapiClient) (rest : list reply) (r : Response)
    (q : prog pyval) :
  action_query q ->
  status_code r = 200 ->
  (content r = [] -> (call c (inr r :: rest) q).2 = Returned PNone) /\
  (forall items v,
      content r <> [] -> decoded r = Some (PDict items) ->
      dict_get "act" items = Some v ->
      (call c (inr r :: rest) q).2 = Returned v) /\
  (forall items,
      content r <> [] -> decoded r = Some (PDict items) ->
      dict_get "act" items = None ->
      (call c (inr r :: rest) q).2 = Returned PNone) /\
  (forall j,
      content r <> [] -> decoded r = Some j ->
      py_in "act" j = Ret false ->
      (call c (inr r :: rest) q).2 = Returned PNone).
Proof.
  intros Hq Hs. destruct (action_query_post q Hq) as (path & seq & body & ->).
  split; [|split; [|split]].
  - intros Hc%has_content_nil. step_call. rewrite Hc, Hs. reflexivity.
  - intros items v Hc%has_content_cons Hd Ha. step_call.
    rewrite Hc, Hd, Hs. cbn. rewrite Ha. reflexivity.
  - intros items Hc%has_content_cons Hd Ha. step_call.
    rewrite Hc, Hd, Hs. cbn. rewrite Ha. reflexivity.
  - intros j Hc%has_content_cons Hd Hin. step_call.
    rewrite Hc, Hd, Hs. cbn. rewrite Hin. reflexivity.
Qed.

(** C1 fails as stated: on status 200 a body that is JSON without any [act]
    key, but not an object, can make the call raise instead of returning
    [None]: [null], the array holding the string "act", the string
    "react". *)
Lemma action_query_success_non_object :
  (call demo [inr (stub 200 PNone)] (act (PInt 5) dahai)).2 =
    Raised (TypeError "argument of type 'NoneType' is not iterable") /\
  (call demo [inr (stub 200 (PList [PStr "act"]))] (act (PInt 5) dahai)).2 =
    Raised (TypeError "list indices must be integers or slices, not str") /\
  (call demo [inr (stub 200 (PStr "react"))] (act (PInt 5) dahai)).2 =
    Raised (TypeError "string indices must be integers, not 'str'").
Proof. repeat split; reflexivity. Qed.

Lemma status_not_200 (r : Response) : status_code r <> 200 -> (status_code r =? 200)%Z = false.
Proof. intros H. apply Z.eqb_neq. exact H. Qed.

(** C2, as the code has it.  On a status other than 200 the action query
    raises a [ProtocolError] with the status alone for an empty body, returns
    the whole body when the JSON object in it has an [error] key, and raises
    a [ProtocolError] with status and raw text when the object has no such
    key; any other decoded body goes the same two ways by the outcome of the
    test ['error' in body]. *)
Theorem action_query_failure (c : MjapiClient) (rest : list reply) (r : Response)
    (q : prog pyval) :
  action_query q ->
  status_code r <> 200 ->
  (content r = [] ->
   (call c (inr r :: rest) q).2 = Raised (ProtocolError (status_code r) None)) /\
  (forall items,
      content r <> [] -> decoded r = Some (PDict items) ->
      is_Some (dict_get "error" items) ->
      (call c (inr r :: rest) q).2 = Returned (PDict items)) /\
  (forall items,
      content r <> [] -> decoded r = Some (PDict items) ->
      dict_get "error" items = None ->
      (call c (inr r :: rest) q).2 =
      Raised (ProtocolError (status_code r) (Some (text r)))) /\
  (forall j,
      content r <> [] -> decoded r = Some j ->
      py_in "error" j = Ret true ->
      (call c (inr r :: rest) q).2 = Returned j) /\
  (forall j,
      content r <> [] -> decoded r = Some j ->
      py_in "error" j = Ret false ->
      (call c (inr r :: rest) q).2 =
      Raised (ProtocolError (status_code r) (Some (text r)))).
Proof.
  intros Hq Hs%status_not_200.
  destruct (action_query_post q Hq) as (path & seq & body & ->).
  split; [|split; [|split; [|split]]].
  - intros Hc%has_content_nil. step_call. rewrite Hc, Hs. reflexivity.
  - intros items Hc%has_content_cons Hd [v Ha]. step_call.
    rewrite Hc, Hd, Hs. cbn. rewrite Ha. reflexivity.
  - intros items Hc%has_content_cons Hd Ha. step_call.
    rewrite Hc, Hd, Hs. cbn. rewrite Ha. reflexivity.
  - intros j Hc%has_content_cons Hd Hin. step_call.
    rewrite Hc, Hd, Hs. cbn. rewrite Hin. reflexivity.
  - intros j Hc%has_content_cons Hd Hin. step_call.
    rewrite Hc, Hd, Hs. cbn. rewrite Hin. reflexivity.
Qed.

(** C2 fails as stated: on status 500 a body that is JSON without any
    [error] key, but not an object, need not end in a [ProtocolError]:
    [null] raises a [TypeError], and the string "internal server error" is
    handed back as if it were an error payload. *)
Lemma action_query_failure_non_object :
  (call demo [inr (stub 500 PNone)] (act (PInt 5) dahai)).2 =
    Raised (TypeError "argument of type 'NoneType' is not iterable") /\
  (call demo [inr (stub 500 (PStr "internal server error"))] (act (PInt 5) dahai)).2 =
    Returned (PStr "internal server error").
Proof. split; reflexivity. Qed.

(** C10.  A non-empty batch whose last envelope is a dict without [seq]
    raises [KeyError] with nothing observed on the lock or the connection and
    the client as it was. *)
Theorem batch_missing_seq (c : MjapiClient) (script : list reply)
    (actions : list pyval) (items : list (string * pyval)) :
  last actions = Some (PDict items) ->
  dict_get "seq" items = None ->
  call c script (batch actions) = (mkWorld c false script [], Raised (KeyError "seq")).
Proof.
  intros Hl Hs. unfold call, batch.
  destruct actions as [|a actions]; [discriminate|].
  cbn [length Nat.eqb]. unfold py_last. rewrite Hl. cbn. rewrite Hs. reflexivity.
Qed.

(** C9.  [login] and [trial] answered with an HTTP-ok status and an empty
    body raise [TypeError]: [_process_res] hands back [None] and the test
    ['id' in res_json] is not defined on it. *)
Theorem login_empty_body_type_error (c : MjapiClient) (rest : list reply) (r : Response)
    (name secret : pyval) :
  ok r = true ->
  content r = [] ->
  (call c (inr r :: rest) (login name secret)).2 =
    Raised (TypeError "argument of type 'NoneType' is not iterable") /\
  (call c (inr r :: rest) trial).2 =
    Raised (TypeError "argument of type 'NoneType' is not iterable").
Proof.
  intros Hok Hc%has_content_nil.
  split; unfold login, trial; step_call; rewrite Hok, Hc; reflexivity.
Qed.

(** Case analysis on whatever test the computation is stuck on; [fin] closes
    the branches. *)
Ltac crunch_with fin :=
  repeat (cbn in *; try fin;
          match goal with
          | |- context [is_RequestException ?e] => is_var e; destruct e
          | |- context [py_in _ ?v] => is_var v; destruct v
          | |- context [py_getitem ?v _] => is_var v; destruct v
          | |- context [dict_get ?k ?items] => destruct (dict_get k items) eqn:?
          | |- context [match ?x with _ => _ end] =>
              lazymatch x with
              | context [match _ with _ => _ end] => fail
              | _ => destruct x eqn:?
              end
          end);
  cbn in *; try fin.

Ltac crunch := crunch_with ltac:(done).

Lemma post_act_log (c : MjapiClient) (script : list reply) (path : string)
    (seq body : pyval) :
  log (call c script (_post_act path seq body)).1 =
  [Acquired;
   Sent (mkRequest POST (base_url c ++ path) (Some body) (headers c) (timeout c));
   Released].
Proof. step_call. crunch. Qed.

Lemma post_act_seq_unused (path : string) (seq seq' body : pyval) :
  _post_act path seq body = _post_act path seq' body.
Proof. reflexivity. Qed.

(** C8, as the code has it.  [batch] on the empty list returns [None] with
    nothing observed on the lock or the connection and the client as it was.
    On a non-empty list it reads [seq] off the last envelope, a [KeyError]
    with nothing sent when the key is missing, and then posts the whole list
    once under the lock to the batch endpoint.  The answer is read as [act]
    reads it and is held against no [seq]: what comes back depends on the
    reply alone, not on the envelopes sent. *)
Theorem batch_correct (c : MjapiClient) (script : list reply) :
  call c script (batch []) = (mkWorld c false script [], Returned PNone) /\
  (forall actions items seq,
      last actions = Some (PDict items) ->
      dict_get "seq" items = Some seq ->
      log (call c script (batch actions)).1 =
        [Acquired;
         Sent (mkRequest POST (base_url c ++ "/mjai/batch") (Some (PList actions))
                         (headers c) (timeout c));
         Released] /\
      wire (call c script (batch actions)).1 = tail script /\
      (forall data, (call c script (batch actions)).2 = (call c script (act seq data)).2)) /\
  (forall actions items,
      last actions = Some (PDict items) ->
      dict_get "seq" items = None ->
      call c script (batch actions) = (mkWorld c false script [], Raised (KeyError "seq"))) /\
  (forall actions items seq actions' items' seq',
      last actions = Some (PDict items) -> dict_get "seq" items = Some seq ->
      last actions' = Some (PDict items') -> dict_get "seq" items' = Some seq' ->
      (call c script (batch actions)).2 = (call c script (batch actions')).2).
Proof.
  split; [reflexivity|]. split; [|split].
  - intros actions items seq Hl Hs.
    rewrite (batch_unfold actions items seq Hl Hs).
    split; [apply post_act_log|]. split.
    + step_call. crunch.
    + intros data. unfold act. step_call. crunch.
  - intros actions items Hl Hs. unfold call, batch.
    destruct actions as [|a actions]; [discriminate|].
    cbn [length Nat.eqb]. unfold py_last. rewrite Hl. cbn. rewrite Hs. reflexivity.
  - intros actions items seq actions' items' seq' Hl Hs Hl' Hs'.
    rewrite (batch_unfold actions items seq Hl Hs).
    rewrite (batch_unfold actions' items' seq' Hl' Hs').
    step_call. crunch.
Qed.

(** C8 fails as stated: a non-empty list whose last envelope has no [seq]
    is not posted, and a reply is not held against the [seq] of the last
    envelope: an answer tagged with sequence number 999 is taken for a batch
    that ended at 7. *)
Lemma batch_ignores_seq :
  log (call demo [inr (stub 200 (PDict [("act", dahai)]))]
            (batch [PDict [("data", dahai)]])).1 = [] /\
  (call demo [inr (stub 200 (PDict [("seq", PInt 999); ("act", dahai)]))]
        (batch [PDict [("seq", PInt 7); ("data", dahai)]])).2 = Returned dahai.
Proof. split; reflexivity. Qed.

(** ** The generic query path *)

Lemma ok_false (r : Response) :
  (400 <= status_code r < 600)%Z -> ok r = false.
Proof.
  intros [H1 H2]. unfold ok.
  apply Z.leb_le in H1. apply Z.ltb_lt in H2. rewrite H1, H2. reflexivity.
Qed.

(** C4, as the code has it.  [stop_bot] posts in the raise-on-error mode of
    [post_req]: an HTTP-ok answer gives back the body ([None] when empty), an
    error status with an [error] object raises [ApiError], and a failure of
    the transport is raised again. *)
Theorem stop_bot_result (c : MjapiClient) (rest : list reply) (r : Response) :
  (ok r = true -> content r = [] ->
   (call c (inr r :: rest) stop_bot).2 = Returned PNone) /\
  (forall j, ok r = true -> content r <> [] -> decoded r = Some j ->
   (call c (inr r :: rest) stop_bot).2 = Returned j) /\
  (forall items message,
      ok r = false -> content r <> [] -> decoded r = Some (PDict items) ->
      dict_get "error" items = Some message ->
      (call c (inr r :: rest) stop_bot).2 = Raised (ApiError (status_code r) message)) /\
  (forall e, (call c (inl e :: rest) stop_bot).2 = Raised e).
Proof.
  unfold stop_bot. repeat split.
  - intros Hok Hc%has_content_nil. step_call. rewrite Hok, Hc. reflexivity.
  - intros j Hok Hc%has_content_cons Hd. step_call. rewrite Hok, Hc, Hd. reflexivity.
  - intros items message Hok Hc%has_content_cons Hd He. step_call.
    rewrite Hok, Hc, Hd. cbn. rewrite He. reflexivity.
  - intros e. step_call. destruct e; reflexivity.
Qed.

(** C4 fails as stated: answered with status 500 and an [error] object,
    [stop_bot] raises instead of returning. *)
Lemma stop_bot_raises :
  (call demo [inr (stub 500 (PDict [("error", PStr "bot not started")]))] stop_bot).2 =
  Raised (ApiError 500 (PStr "bot not started")).
Proof. reflexivity. Qed.

(** C5, as the code has it.  [get_user_info] and [list_models] keep the
    raise-on-error default of [get_req]: answered with an error status (400 to
    599) and a JSON object holding [error], they raise [ApiError] with the
    status and the value under [error]. *)
Theorem info_queries_raise (c : MjapiClient) (rest : list reply) (r : Response)
    (items : list (string * pyval)) (message : pyval) :
  (400 <= status_code r < 600)%Z ->
  content r <> [] ->
  decoded r = Some (PDict items) ->
  dict_get "error" items = Some message ->
  (call c (inr r :: rest) get_user_info).2 = Raised (ApiError (status_code r) message) /\
  (call c (inr r :: rest) list_models).2 = Raised (ApiError (status_code r) message).
Proof.
  intros Hok%ok_false Hc%has_content_cons Hd He.
  split; unfold get_user_info, list_models; step_call;
    rewrite Hok, Hc, Hd; cbn; rewrite He; reflexivity.
Qed.

(** C5 fails as stated.  [get_limit] and [get_usage] hand [None] to
    [get_req] as [raise_error], so an error payload comes back: [get_limit]
    returns it and [get_usage] looks up [used] in it.  And a status that is
    not 2xx but below 400 counts as [ok], so [get_user_info] returns the
    payload. *)
Lemma info_queries_not_all_raising :
  (call demo [inr (stub 500 (PDict [("error", PStr "quota")]))] get_limit).2 =
    Returned (PDict [("error", PStr "quota")]) /\
  (call demo [inr (stub 500 (PDict [("error", PStr "quota")]))] get_usage).2 =
    Raised (KeyError "used") /\
  (call demo [inr (stub 300 (PDict [("error", PStr "moved")]))] get_user_info).2 =
    Returned (PDict [("error", PStr "moved")]).
Proof. repeat split; reflexivity. Qed.

(** ** Credentials *)

(** C7, as the code has it.  [login] and [trial] answered HTTP-ok with a JSON
    object that has no [id] raise [AuthenticationError] with the whole object;
    and whenever either of them raises, whatever the transport did, the
    client is as it was before the call. *)
Theorem login_failure_atomic (c : MjapiClient) (name secret : pyval) :
  (forall rest r items,
      ok r = true -> content r <> [] -> decoded r = Some (PDict items) ->
      dict_get "id" items = None ->
      (call c (inr r :: rest) (login name secret)).2 = Raised (AuthenticationError (PDict items)) /\
      (call c (inr r :: rest) trial).2 = Raised (AuthenticationError (PDict items))) /\
  (forall script e,
      (call c script (login name secret)).2 = Raised e ->
      self (call c script (login name secret)).1 = c) /\
  (forall script e,
      (call c script trial).2 = Raised e ->
      self (call c script trial).1 = c).
Proof.
  split; [|split].
  - intros rest r items Hok Hc%has_content_cons Hd Hi.
    split; unfold login, trial; step_call; rewrite Hok, Hc, Hd; cbn; rewrite Hi; reflexivity.
  - intros script e. unfold login. step_call. crunch.
  - intros script e. unfold trial. step_call. crunch.
Qed.

(** C7 fails as stated: answered with status 401 and an [error] object, which
    has no [id], [login] raises the [ApiError] of [_process_res], made of the
    status and the value under [error], not an [AuthenticationError] with the
    payload. *)
Lemma login_error_status_not_auth_error :
  (call demo [inr (stub 401 (PDict [("error", PStr "bad secret")]))]
        (login (PStr "alice") (PStr "s3cr3t"))).2 =
    Raised (ApiError 401 (PStr "bad secret")) /\
  ApiError 401 (PStr "bad secret") <> AuthenticationError (PDict [("error", PStr "bad secret")]).
Proof. split; [reflexivity|discriminate]. Qed.

Ltac sent_cases H :=
  repeat (apply elem_of_cons in H as [H|H];
          [try discriminate; try (injection H as ->; reflexivity)|]);
  try (apply elem_of_nil in H; destruct H).

Ltac frame_done :=
  split; [reflexivity|split; [reflexivity|]];
  first [ exists []; split; [by rewrite app_nil_r|]; intros ? []%elem_of_nil
        | rewrite <- ?app_assoc; eexists; split; [reflexivity|];
          let H := fresh in intros ? H; cbn in H; sent_cases H ].

Lemma op_frame (o : op) (w : world) :
  sets_credentials o = false -> locked w = false ->
  frames w (run (method_of o) w).1.
Proof.
  destruct w as [c lk script lg]. cbn. intros Ho ->.
  unfold frames.
  destruct o; try discriminate Ho; clear Ho;
    unfold method_of, register, get_user_info, logout, list_models, get_usage,
      get_limit, start_bot, stop_bot, act, batch, close, py_last;
    step_call; crunch_with frame_done.
Qed.

Lemma frames_refl (w : world) : locked w = false -> frames w w.
Proof.
  intros Hl. split; [reflexivity|split; [exact Hl|]].
  exists []. split; [by rewrite app_nil_r|]. intros rq []%elem_of_nil.
Qed.

Lemma frames_trans (w1 w2 w3 : world) : frames w1 w2 -> frames w2 w3 -> frames w1 w3.
Proof.
  intros (Hs1 & Hl1 & tr1 & Hlog1 & Hh1) (Hs2 & Hl2 & tr2 & Hlog2 & Hh2).
  split; [congruence|split; [exact Hl2|]].
  exists (tr1 ++ tr2)%list. split.
  - rewrite Hlog2, Hlog1, app_assoc. reflexivity.
  - intros rq [Hin|Hin]%elem_of_app.
    + apply Hh1, Hin.
    + rewrite <- Hs1. apply Hh2, Hin.
Qed.

Lemma session_frame (os : list op) (w : world) :
  forallb (fun o => negb (sets_credentials o)) os = true ->
  locked w = false ->
  frames w (session os w).
Proof.
  revert w. induction os as [|o os IH]; intros w Hos Hl; cbn.
  - apply frames_refl, Hl.
  - cbn in Hos. apply andb_true_iff in Hos as [Ho Hos].
    apply negb_true_iff in Ho.
    pose proof (op_frame o w Ho Hl) as Hf.
    eapply frames_trans; [exact Hf|].
    apply IH; [exact Hos|]. apply Hf.
Qed.

(** C6, as the code has it.  A [login] answered HTTP-ok with a JSON object
    holding [id] returns, the token is the value under [id] and the
    [Authorization] header is [Bearer] followed by it; every request sent by
    the calls that follow carries that header, as long as none of them is
    [login], [trial] or [set_temp_user]. *)
Theorem login_installs_bearer (c : MjapiClient) (rest : list reply) (r : Response)
    (name secret : pyval) (items : list (string * pyval)) (tok : pyval) :
  ok r = true ->
  content r <> [] ->
  decoded r = Some (PDict items) ->
  dict_get "id" items = Some tok ->
  let w1 := (call c (inr r :: rest) (login name secret)).1 in
  (call c (inr r :: rest) (login name secret)).2 = Returned PNone /\
  token (self w1) = tok /\
  headers (self w1) !! "Authorization" = Some [Lit "Bearer "; Fmt tok] /\
  (forall os,
      forallb (fun o => negb (sets_credentials o)) os = true ->
      token (self (session os w1)) = tok /\
      exists tr,
        log (session os w1) = (log w1 ++ tr)%list /\
        forall rq, Sent rq ∈ tr ->
                   req_headers rq !! "Authorization" = Some [Lit "Bearer "; Fmt tok]).
Proof.
  intros Hok Hc%has_content_cons Hd Hi w1.
  assert (Hw1 : w1 =
    mkWorld (mkClient (base_url c) (timeout c) tok
                      (<["Authorization" := [Lit "Bearer "; Fmt tok]]> (headers c)))
            false rest
            [Acquired;
             Sent (mkRequest POST (base_url c ++ "/user/login")
                             (Some (PDict [("name", name); ("secret", secret)]))
                             (headers c) (timeout c));
             Released]).
  { subst w1. unfold login. step_call. rewrite Hok, Hc, Hd. cbn. rewrite Hi. reflexivity. }
  split; [|split; [|split]].
  - unfold login. step_call. rewrite Hok, Hc, Hd. cbn. rewrite Hi. reflexivity.
  - rewrite Hw1. reflexivity.
  - rewrite Hw1. cbn. apply lookup_insert_eq.
  - intros os Hos.
    destruct (session_frame os w1 Hos) as (Hs & _ & tr & Hlog & Hh).
    { rewrite Hw1. reflexivity. }
    split; [rewrite Hs, Hw1; reflexivity|].
    exists tr. split; [exact Hlog|].
    intros rq Hin. rewrite (Hh rq Hin), Hw1. cbn. apply lookup_insert_eq.
Qed.

(** C6 fails as stated: an answer whose JSON holds [id] but whose status is
    an error status makes [login] raise, and no token is installed. *)
Lemma login_id_on_error_status :
  call demo [inr (stub 500 (PDict [("error", PStr "denied"); ("id", PStr "tok123")]))]
       (login (PStr "alice") (PStr "s3cr3t")) =
  (mkWorld demo false []
     [Acquired;
      Sent (mkRequest POST "https://mjapi.example/user/login"
                      (Some (PDict [("name", PStr "alice"); ("secret", PStr "s3cr3t")]))
                      ∅ (5 # 1));
      Released],
   Raised (ApiError 500 (PStr "denied"))).
Proof. reflexivity. Qed.

(** P7 of the specification, on the wire. *)
Example bearer_tok123 : render [Lit "Bearer "; Fmt (PStr "tok123")] = Some "Bearer tok123".
Proof. reflexivity. Qed.

(** ** The lock discipline *)

Lemma event_rule_mono {X : Type} (ev : event X) (held : bool)
    (post post' : X -> bool -> Prop) :
  (forall x h, post x h -> post' x h) ->
  event_rule ev held post -> event_rule ev held post'.
Proof. intros Hpp. destruct ev; cbn; intuition auto. Qed.

Lemma bracketed_bind {A B : Type} (p : prog A) (f : A -> prog B) (held final : bool) :
  bracketed held final p ->
  (forall a, bracketed final final (f a)) ->
  bracketed held final (bind p f).
Proof.
  intros Hp Hf. revert held Hp.
  induction p as [a|e|X ev k IH]; intros held Hp; cbn in *.
  - subst held. apply Hf.
  - exact Hp.
  - eapply event_rule_mono; [|exact Hp]. intros x h. apply IH.
Qed.

Lemma bracketed_try_except {A : Type} (p : prog A) (h : exn -> prog A)
    (held final : bool) :
  bracketed held final p ->
  (forall e, bracketed final final (h e)) ->
  bracketed held final (try_except p h).
Proof.
  intros Hp Hh. revert held Hp.
  induction p as [a|e|X ev k IH]; intros held Hp; cbn in *.
  - exact Hp.
  - subst held. apply Hh.
  - eapply event_rule_mono; [|exact Hp]. intros x h'. apply IH.
Qed.

(** The body of a [with self._lock:] block neither takes nor drops the lock;
    the block drops it on the way out, by return and by exception alike. *)
Lemma bracketed_releasing {A : Type} (p : prog A) :
  bracketed true true p -> bracketed true false (releasing p).
Proof.
  assert (H : forall held, bracketed held true p -> bracketed held false (releasing p)).
  { induction p as [a|e|X ev k IH]; intros held Hp; cbn in *.
    - split; [exact Hp|reflexivity].
    - split; [exact Hp|reflexivity].
    - eapply event_rule_mono; [|exact Hp]. intros x h. apply IH. }
  apply H.
Qed.

Lemma bracketed_with_lock {A : Type} (body : prog A) :
  bracketed true true body -> bracketed false false (with_lock body).
Proof. intros Hb. cbn. split; [reflexivity|]. apply bracketed_releasing, Hb. Qed.

Lemma bracketed_session_post (url : string) (body : option pyval) :
  bracketed true true (session_post url body).
Proof. cbn. intros c. split; [reflexivity|]. intros [e|res]; reflexivity. Qed.

Lemma bracketed_session_get (url : string) :
  bracketed true true (session_get url).
Proof. cbn. intros c. split; [reflexivity|]. intros [e|res]; reflexivity. Qed.

Lemma bracketed_process_res (res : Response) (raise_error : option bool) (held : bool) :
  bracketed held held (_process_res res raise_error).
Proof. unfold _process_res, json. crunch. Qed.

Lemma bracketed_on_request_exception (raise_error : option bool) (e : exn) :
  bracketed false false (on_request_exception raise_error e).
Proof. unfold on_request_exception. crunch. Qed.

Lemma bracketed_read_self (held : bool) : bracketed held held (trigger ReadSelf).
Proof. cbn. reflexivity. Qed.

Lemma bracketed_post_req (path : string) (body : option pyval) (raise_error : option bool) :
  bracketed false false (post_req path body raise_error).
Proof.
  unfold post_req. apply bracketed_try_except.
  - apply bracketed_bind; [apply bracketed_read_self|]. intros c.
    apply bracketed_bind.
    + apply bracketed_with_lock, bracketed_session_post.
    + intros res. apply bracketed_process_res.
  - apply bracketed_on_request_exception.
Qed.

Lemma bracketed_get_req (path : string) (raise_error : option bool) :
  bracketed false false (get_req path raise_error).
Proof.
  unfold get_req. apply bracketed_try_except.
  - apply bracketed_bind; [apply bracketed_read_self|]. intros c.
    apply bracketed_bind.
    + apply bracketed_with_lock, bracketed_session_get.
    + intros res. apply bracketed_process_res.
  - apply bracketed_on_request_exception.
Qed.

Lemma bracketed_py_in (k : string) (v : pyval) (held : bool) :
  bracketed held held (py_in k v).
Proof. destruct v; reflexivity. Qed.

Lemma bracketed_py_getitem (v : pyval) (k : string) (held : bool) :
  bracketed held held (py_getitem v k).
Proof. destruct v; cbn; try reflexivity. destruct (dict_get k items); reflexivity. Qed.

Lemma bracketed_set_bearer_token (t : pyval) (held : bool) :
  bracketed held held (set_bearer_token t).
Proof. reflexivity. Qed.

Lemma bracketed_save_id (res_json : pyval) :
  bracketed false false (save_id res_json).
Proof.
  unfold save_id. apply bracketed_bind; [apply bracketed_py_in|].
  intros [|]; [|reflexivity].
  apply bracketed_bind; [apply bracketed_py_getitem|]. intros t.
  cbn. reflexivity.
Qed.

Lemma bracketed_post_act (path : string) (seq body : pyval) :
  bracketed false false (_post_act path seq body).
Proof.
  unfold _post_act. apply bracketed_bind.
  - apply bracketed_with_lock.
    apply bracketed_bind; [apply bracketed_read_self|]. intros c.
    apply bracketed_session_post.
  - intros response. unfold json. crunch.
Qed.

(** Every operation of the client takes the lock before it uses the
    connection and has dropped it when it returns or raises. *)
Lemma method_bracketed (o : op) : bracketed false false (method_of o).
Proof.
  destruct o; cbn [method_of].
  - apply bracketed_post_req.
  - apply bracketed_bind; [apply bracketed_post_req|]. apply bracketed_save_id.
  - apply bracketed_bind; [apply bracketed_post_req|]. apply bracketed_save_id.
  - by cbn.
  - apply bracketed_get_req.
  - apply bracketed_post_req.
  - apply bracketed_bind; [apply bracketed_get_req|].
    intros v. apply bracketed_py_getitem.
  - apply bracketed_bind; [apply bracketed_get_req|].
    intros v. apply bracketed_py_getitem.
  - apply bracketed_get_req.
  - apply bracketed_post_req.
  - apply bracketed_post_req.
  - apply bracketed_post_act.
  - unfold batch. destruct (length actions =? 0)%nat; [reflexivity|].
    apply bracketed_bind.
    { unfold py_last. destruct (last actions); reflexivity. }
    intros l. apply bracketed_bind; [apply bracketed_py_getitem|].
    intros seq. apply bracketed_post_act.
  - by cbn.
Qed.

(** ** At most one request in flight *)

Lemma count_app {A : Type} (f : A -> bool) (l1 l2 : list A) :
  count f (l1 ++ l2) = (count f l1 + count f l2)%nat.
Proof. induction l1 as [|x l1 IH]; cbn; [reflexivity|]. rewrite IH. lia. Qed.

Lemma in_flight_holds (held : bool) (t : thread) :
  thread_ok held t -> (Nat.b2n (in_flight t) <= Nat.b2n held)%nat.
Proof.
  unfold thread_ok, in_flight. destruct (doing t); cbn.
  - lia.
  - intros [-> _]. cbn. lia.
Qed.

Lemma in_flight_le_holders (holders : list bool) (ts : list thread) :
  Forall2 thread_ok holders ts -> (count in_flight ts <= count id holders)%nat.
Proof.
  induction 1 as [|h t hs ts Hok _ IH]; cbn; [lia|].
  apply in_flight_holds in Hok. unfold id in *. lia.
Qed.

Lemma lock_invariant_start (c : MjapiClient) (workloads : list (list op)) :
  lock_invariant (start c workloads).
Proof.
  exists (map (fun _ => false) workloads). cbn. split.
  - induction workloads as [|os ws IH]; cbn; constructor; [reflexivity|exact IH].
  - induction workloads as [|os ws IH]; cbn; [reflexivity|exact IH].
Qed.

(** What one step of a thread does to its hold on the lock. *)
Lemma thread_step_ok c lk t c' lk' t' (held : bool) :
  thread_step c lk t c' lk' t' ->
  thread_ok held t ->
  exists held',
    thread_ok held' t' /\
    (Nat.b2n lk' + Nat.b2n held = Nat.b2n lk + Nat.b2n held' \/
     (held = true /\ held' = false /\ lk' = false))%nat.
Proof.
  intros Hstep. destruct Hstep; unfold thread_ok; cbn.
  - intros ->. exists false. split; [apply method_bracketed|]. left. lia.
  - intros ->. exists false. split; [apply method_bracketed|]. left. lia.
  - intros [-> Hk]. exists true. split; [exact Hk|]. left. cbn. lia.
  - intros [-> Hk]. exists false. split; [exact Hk|]. right. done.
  - intros [-> Hk]. exists true. split; [done|]. left. lia.
  - intros [-> Hk]. exists true. split; [apply Hk|]. left. lia.
  - intros Hk. exists held. split; [exact Hk|]. left. lia.
  - intros Hk. exists held. split; [apply Hk|]. left. lia.
  - intros Hk. exists held. split; [exact Hk|]. left. lia.
  - intros Hk. exists held. split; [exact Hk|]. left. lia.
Qed.

Lemma lock_invariant_step (s s' : system) :
  step s s' -> lock_invariant s -> lock_invariant s'.
Proof.
  intros [c lk ts1 t ts2 c' lk' t' Hstep] (holders & Hall & Hcount). cbn in *.
  apply Forall2_app_inv_r in Hall as (hs1 & hs' & H1 & H2 & ->).
  apply Forall2_cons_inv_r in H2 as (held & hs2 & Hok & H2 & ->).
  destruct (thread_step_ok _ _ _ _ _ _ held Hstep Hok) as (held' & Hok' & Hlk).
  exists (hs1 ++ held' :: hs2)%list. split.
  - apply Forall2_app; [exact H1|]. constructor; [exact Hok'|exact H2].
  - rewrite count_app in *. cbn in *. unfold id in *.
    destruct Hlk as [Hlk|(-> & -> & ->)].
    + lia.
    + cbn in *. destruct lk; cbn in *; lia.
Qed.

Lemma lock_invariant_reachable (c : MjapiClient) (workloads : list (list op)) (s : system) :
  rtc step (start c workloads) s -> lock_invariant s.
Proof.
  revert s. apply rtc_ind_r.
  - apply lock_invariant_start.
  - intros s s' _ Hstep Hinv. exact (lock_invariant_step s s' Hstep Hinv).
Qed.

(** The discipline, read on a single caller: a bracketed program never
    blocks on a lock it finds as expected, and leaves the lock as promised. *)
Lemma bracketed_run {A : Type} (p : prog A) (held final : bool) (w : world) :
  bracketed held final p ->
  locked w = held ->
  locked (run p w).1 = final /\ (run p w).2 <> Blocked.
Proof.
  revert held w. induction p as [a|e|X ev k IH]; intros held w Hp Hl; cbn in *.
  - split; [congruence|discriminate].
  - split; [congruence|discriminate].
  - destruct ev; cbn in *.
    + destruct Hp as [-> Hk]. rewrite Hl. eapply IH; [exact Hk|reflexivity].
    + destruct Hp as [-> Hk]. eapply IH; [exact Hk|reflexivity].
    + destruct Hp as [-> Hk]. destruct (wire w) as [|r rest];
        (eapply IH; [apply Hk|exact Hl]).
    + eapply IH; [exact Hp|exact Hl].
    + eapply IH; [apply Hp|exact Hl].
    + eapply IH; [exact Hp|exact Hl].
    + eapply IH; [exact Hp|exact Hl].
Qed.

(** C3.  Every operation takes the lock before it uses the connection and
    has dropped it on every way out, whatever the transport answers or
    raises, a timeout included; and in every state that any number of caller
    threads can reach, by any interleaving of their steps, at most one request
    has been sent and not yet answered, and none while the lock is free. *)
Theorem one_request_in_flight (c : MjapiClient) (workloads : list (list op)) (s : system) :
  rtc step (start c workloads) s ->
  (forall o, bracketed false false (method_of o)) /\
  (forall o c' script, locked (call c' script (method_of o)).1 = false /\
                       (call c' script (method_of o)).2 <> Blocked) /\
  (requests_in_flight s <= 1)%nat /\
  (lock_held s = false -> requests_in_flight s = 0%nat).
Proof.
  intros Hr. split; [exact method_bracketed|]. split.
  { intros o c' script. unfold call.
    eapply bracketed_run; [apply method_bracketed|reflexivity]. }
  destruct (lock_invariant_reachable c workloads s Hr) as (holders & Hall & Hcount).
  apply in_flight_le_holders in Hall. unfold requests_in_flight.
  split.
  - destruct (lock_held s); cbn in Hcount; lia.
  - intros Hl. rewrite Hl in Hcount. cbn in Hcount. lia.
Qed.

(** ** The theorems at concrete answers *)

Lemma action_query_success_witness :
  action_query (act (PInt 5) dahai) /\
  status_code (stub 200 (PDict [("act", dahai)])) = 200 /\
  (call demo [inr (stub 200 (PDict [("act", dahai)]))] (act (PInt 5) dahai)).2 =
    Returned dahai /\
  (call demo [inr (stub_empty 200)] (act (PInt 5) dahai)).2 = Returned PNone /\
  py_in "act" (PList [PStr "ok"]) = Ret false /\
  (call demo [inr (stub 200 (PList [PStr "ok"]))] (act (PInt 5) dahai)).2 = Returned PNone.
Proof.
  split; [apply aq_act|]. split; [reflexivity|]. split; [|split; [|split]].
  - destruct (action_query_success demo [] (stub 200 (PDict [("act", dahai)]))
                (act (PInt 5) dahai) (aq_act _ _) eq_refl) as (_ & H & _).
    apply (H [("act", dahai)] dahai); [vm_compute; discriminate|reflexivity|reflexivity].
  - destruct (action_query_success demo [] (stub_empty 200)
                (act (PInt 5) dahai) (aq_act _ _) eq_refl) as (H & _).
    apply H. reflexivity.
  - reflexivity.
  - destruct (action_query_success demo [] (stub 200 (PList [PStr "ok"]))
                (act (PInt 5) dahai) (aq_act _ _) eq_refl) as (_ & _ & _ & H).
    apply (H (PList [PStr "ok"])); [vm_compute; discriminate|reflexivity|reflexivity].
Defined.

Lemma action_query_failure_witness :
  action_query (batch [PDict [("seq", PInt 7); ("data", dahai)]]) /\
  status_code (stub 400 (PDict [("error", PStr "rate limited")])) <> 200 /\
  (call demo [inr (stub 400 (PDict [("error", PStr "rate limited")]))]
        (batch [PDict [("seq", PInt 7); ("data", dahai)]])).2 =
    Returned (PDict [("error", PStr "rate limited")]) /\
  (call demo [inr (stub_empty 500)] (batch [PDict [("seq", PInt 7); ("data", dahai)]])).2 =
    Raised (ProtocolError 500 None) /\
  py_in "error" (PList [PStr "busy"]) = Ret false /\
  (call demo [inr (stub 503 (PList [PStr "busy"]))]
        (batch [PDict [("seq", PInt 7); ("data", dahai)]])).2 =
    Raised (ProtocolError 503 (Some (dumps (PList [PStr "busy"])))).
Proof.
  assert (Hq : action_query (batch [PDict [("seq", PInt 7); ("data", dahai)]])).
  { eapply aq_batch; reflexivity. }
  split; [exact Hq|]. split; [discriminate|]. split; [|split; [|split]].
  - destruct (action_query_failure demo [] (stub 400 (PDict [("error", PStr "rate limited")]))
                _ Hq ltac:(discriminate)) as (_ & H & _).
    apply H; [vm_compute; discriminate|reflexivity|]. eexists. reflexivity.
  - destruct (action_query_failure demo [] (stub_empty 500) _ Hq ltac:(discriminate))
      as (H & _).
    apply H. reflexivity.
  - reflexivity.
  - destruct (action_query_failure demo [] (stub 503 (PList [PStr "busy"])) _ Hq
                ltac:(discriminate)) as (_ & _ & _ & _ & H).
    apply (H (PList [PStr "busy"])); [vm_compute; discriminate|reflexivity|reflexivity].
Defined.

Lemma batch_missing_seq_witness :
  last [PDict [("data", dahai)]] = Some (PDict [("data", dahai)]) /\
  dict_get "seq" [("data", dahai)] = None /\
  call demo [] (batch [PDict [("data", dahai)]]) =
    (mkWorld demo false [] [], Raised (KeyError "seq")).
Proof.
  split; [reflexivity|]. split; [reflexivity|].
  apply (batch_missing_seq demo [] [PDict [("data", dahai)]] [("data", dahai)]); reflexivity.
Defined.

Lemma login_empty_body_type_error_witness :
  ok (stub_empty 200) = true /\
  content (stub_empty 200) = [] /\
  (call demo [inr (stub_empty 200)] (login (PStr "alice") (PStr "s3cr3t"))).2 =
    Raised (TypeError "argument of type 'NoneType' is not iterable").
Proof.
  split; [reflexivity|]. split; [reflexivity|].
  apply (login_empty_body_type_error demo [] (stub_empty 200) (PStr "alice") (PStr "s3cr3t"));
    reflexivity.
Defined.

Lemma batch_correct_witness :
  last [PDict [("seq", PInt 6); ("data", dahai)]; PDict [("seq", PInt 7); ("data", dahai)]] =
    Some (PDict [("seq", PInt 7); ("data", dahai)]) /\
  dict_get "seq" [("seq", PInt 7); ("data", dahai)] = Some (PInt 7) /\
  log (call demo [inr (stub 200 (PDict [("act", dahai)]))]
         (batch [PDict [("seq", PInt 6); ("data", dahai)];
                 PDict [("seq", PInt 7); ("data", dahai)]])).1 =
    [Acquired;
     Sent (mkRequest POST "https://mjapi.example/mjai/batch"
             (Some (PList [PDict [("seq", PInt 6); ("data", dahai)];
                           PDict [("seq", PInt 7); ("data", dahai)]]))
             ∅ (5 # 1));
     Released] /\
  last [PDict [("seq", PInt 41)]] = Some (PDict [("seq", PInt 41)]) /\
  dict_get "seq" [("seq", PInt 41)] = Some (PInt 41) /\
  (call demo [inr (stub 200 (PDict [("act", dahai)]))]
         (batch [PDict [("seq", PInt 6); ("data", dahai)];
                 PDict [("seq", PInt 7); ("data", dahai)]])).2 =
  (call demo [inr (stub 200 (PDict [("act", dahai)]))]
         (batch [PDict [("seq", PInt 41)]])).2.
Proof.
  split; [reflexivity|]. split; [reflexivity|].
  destruct (batch_correct demo [inr (stub 200 (PDict [("act", dahai)]))])
    as (_ & H & _ & Hsame).
  destruct (H [PDict [("seq", PInt 6); ("data", dahai)]; PDict [("seq", PInt 7); ("data", dahai)]]
              [("seq", PInt 7); ("data", dahai)] (PInt 7) eq_refl eq_refl) as (Hlog & _).
  split; [exact Hlog|]. split; [reflexivity|]. split; [reflexivity|].
  exact (Hsame [PDict [("seq", PInt 6); ("data", dahai)]; PDict [("seq", PInt 7); ("data", dahai)]]
               [("seq", PInt 7); ("data", dahai)] (PInt 7)
               [PDict [("seq", PInt 41)]] [("seq", PInt 41)] (PInt 41)
               eq_refl eq_refl eq_refl eq_refl).
Defined.

Lemma stop_bot_result_witness :
  ok (stub 200 (PDict [("status", PStr "stopped")])) = true /\
  (call demo [inr (stub 200 (PDict [("status", PStr "stopped")]))] stop_bot).2 =
    Returned (PDict [("status", PStr "stopped")]) /\
  ok (stub 500 (PDict [("error", PStr "bot not started")])) = false /\
  (call demo [inr (stub 500 (PDict [("error", PStr "bot not started")]))] stop_bot).2 =
    Raised (ApiError 500 (PStr "bot not started")).
Proof.
  split; [reflexivity|]. split.
  - destruct (stop_bot_result demo [] (stub 200 (PDict [("status", PStr "stopped")])))
      as (_ & H & _).
    apply H; [reflexivity|vm_compute; discriminate|reflexivity].
  - split; [reflexivity|].
    destruct (stop_bot_result demo [] (stub 500 (PDict [("error", PStr "bot not started")])))
      as (_ & _ & H & _).
    apply (H [("error", PStr "bot not started")]);
      [reflexivity|vm_compute; discriminate|reflexivity|reflexivity].
Defined.

Lemma info_queries_raise_witness :
  (400 <= status_code (stub 403 (PDict [("error", PStr "forbidden")])) < 600)%Z /\
  (call demo [inr (stub 403 (PDict [("error", PStr "forbidden")]))] get_user_info).2 =
    Raised (ApiError 403 (PStr "forbidden")) /\
  (call demo [inr (stub 403 (PDict [("error", PStr "forbidden")]))] list_models).2 =
    Raised (ApiError 403 (PStr "forbidden")).
Proof.
  split; [cbn; lia|].
  apply (info_queries_raise demo [] (stub 403 (PDict [("error", PStr "forbidden")]))
           [("error", PStr "forbidden")] (PStr "forbidden"));
    [cbn; lia|vm_compute; discriminate|reflexivity|reflexivity].
Defined.

Lemma login_failure_atomic_witness :
  ok (stub 200 (PDict [("error", PStr "bad secret")])) = true /\
  dict_get "id" [("error", PStr "bad secret")] = None /\
  (call demo [inr (stub 200 (PDict [("error", PStr "bad secret")]))]
        (login (PStr "alice") (PStr "s3cr3t"))).2 =
    Raised (AuthenticationError (PDict [("error", PStr "bad secret")])) /\
  self (call demo [inr (stub 200 (PDict [("error", PStr "bad secret")]))]
             (login (PStr "alice") (PStr "s3cr3t"))).1 = demo.
Proof.
  split; [reflexivity|]. split; [reflexivity|].
  destruct (login_failure_atomic demo (PStr "alice") (PStr "s3cr3t")) as (H1 & H2 & _).
  destruct (H1 [] (stub 200 (PDict [("error", PStr "bad secret")]))
               [("error", PStr "bad secret")] eq_refl ltac:(vm_compute; discriminate)
               eq_refl eq_refl) as (Hl & _).
  split; [exact Hl|]. exact (H2 _ _ Hl).
Defined.

Lemma login_installs_bearer_witness :
  ok (stub 200 (PDict [("id", PStr "tok123")])) = true /\
  dict_get "id" [("id", PStr "tok123")] = Some (PStr "tok123") /\
  token (self (call demo [inr (stub 200 (PDict [("id", PStr "tok123")])); inr (stub_empty 200)]
                    (login (PStr "alice") (PStr "s3cr3t"))).1) = PStr "tok123" /\
  exists tr,
    log (session [OpGetUserInfo; OpAct (PInt 5) dahai]
           (call demo [inr (stub 200 (PDict [("id", PStr "tok123")])); inr (stub_empty 200)]
                 (login (PStr "alice") (PStr "s3cr3t"))).1) =
    (log (call demo [inr (stub 200 (PDict [("id", PStr "tok123")])); inr (stub_empty 200)]
               (login (PStr "alice") (PStr "s3cr3t"))).1 ++ tr)%list /\
    forall rq, Sent rq ∈ tr ->
               req_headers rq !! "Authorization" = Some [Lit "Bearer "; Fmt (PStr "tok123")].
Proof.
  split; [reflexivity|]. split; [reflexivity|].
  destruct (login_installs_bearer demo [inr (stub_empty 200)]
              (stub 200 (PDict [("id", PStr "tok123")])) (PStr "alice") (PStr "s3cr3t")
              [("id", PStr "tok123")] (PStr "tok123")
              eq_refl ltac:(vm_compute; discriminate) eq_refl eq_refl)
    as (_ & Ht & _ & Hs).
  split; [exact Ht|].
  destruct (Hs [OpGetUserInfo; OpAct (PInt 5) dahai] eq_refl) as (_ & Htr).
  exact Htr.
Defined.

Lemma one_request_in_flight_witness :
  exists s,
    rtc step (start demo [[OpGetUserInfo]; [OpAct (PInt 5) dahai]]) s /\
    requests_in_flight s = 1%nat /\
    (requests_in_flight s <= 1)%nat.
Proof.
  assert (H : exists s, rtc step (start demo [[OpGetUserInfo]; [OpAct (PInt 5) dahai]]) s /\
                        requests_in_flight s = 1%nat).
  { eexists. split.
    - unfold start. cbn [map].
      eapply rtc_l; [apply (step_thread _ _ [] _ [_]); apply ts_returned|].
      eapply rtc_l; [apply (step_thread _ _ [] _ [_]); apply ts_read|].
      eapply rtc_l; [apply (step_thread _ _ [_] _ []); apply ts_returned|].
      eapply rtc_l; [apply (step_thread _ _ [] _ [_]); apply ts_acquire|].
      eapply rtc_l; [apply (step_thread _ _ [] _ [_]); apply ts_read|].
      eapply rtc_l; [apply (step_thread _ _ [] _ [_]); apply ts_send|].
      apply rtc_refl.
    - reflexivity. }
  destruct H as (s & Hr & Hn). exists s.
  split; [exact Hr|]. split; [exact Hn|].
  apply (one_request_in_flight demo [[OpGetUserInfo]; [OpAct (PInt 5) dahai]] s Hr).
Defined.

(** ** The two request helpers, in both error modes *)

(** X1.  An error status with a JSON object that has no [error] key is
    fatal in every mode: [post_req] and [get_req] raise the "Unexpected API
    response" error with status and raw text even when told not to raise. *)
Theorem unexpected_response_is_fatal (c : MjapiClient) (rest : list reply) (r : Response)
    (path : string) (body : option pyval) (raise_error : option bool)
    (items : list (string * pyval)) :
  ok r = false ->
  content r <> [] ->
  decoded r = Some (PDict items) ->
  dict_get "error" items = None ->
  (call c (inr r :: rest) (post_req path body raise_error)).2 =
    Raised (UnexpectedResponse (status_code r) (text r)) /\
  (call c (inr r :: rest) (get_req path raise_error)).2 =
    Raised (UnexpectedResponse (status_code r) (text r)).
Proof.
  intros Hok Hc%has_content_cons Hd He.
  split; step_call; rewrite Hok, Hc, Hd; cbn; rewrite He; reflexivity.
Qed.

Lemma unexpected_response_is_fatal_witness :
  ok (stub 502 (PDict [("detail", PStr "bad gateway")])) = false /\
  dict_get "error" [("detail", PStr "bad gateway")] = None /\
  (call demo [inr (stub 502 (PDict [("detail", PStr "bad gateway")]))]
        (get_req "/mjai/limit" None)).2 =
    Raised (UnexpectedResponse 502 (dumps (PDict [("detail", PStr "bad gateway")]))).
Proof.
  split; [reflexivity|]. split; [reflexivity|].
  apply (unexpected_response_is_fatal demo [] (stub 502 (PDict [("detail", PStr "bad gateway")]))
           "/mjai/limit" None None [("detail", PStr "bad gateway")]);
    [reflexivity|vm_compute; discriminate|reflexivity|reflexivity].
Defined.

(** X2.  With a [raise_error] that is [False] or [None], both helpers turn a
    [RequestException] of the transport into [None], and hand back the whole
    error object of an error status instead of raising. *)
Theorem suppressed_mode_returns (c : MjapiClient) (rest : list reply)
    (path : string) (body : option pyval) (raise_error : option bool) :
  truthy raise_error = false ->
  (forall e, is_RequestException e = true ->
     (call c (inl e :: rest) (post_req path body raise_error)).2 = Returned PNone /\
     (call c (inl e :: rest) (get_req path raise_error)).2 = Returned PNone) /\
  (forall r items,
     ok r = false -> content r <> [] -> decoded r = Some (PDict items) ->
     is_Some (dict_get "error" items) ->
     (call c (inr r :: rest) (post_req path body raise_error)).2 = Returned (PDict items) /\
     (call c (inr r :: rest) (get_req path raise_error)).2 = Returned (PDict items)).
Proof.
  intros Hflag. split.
  - intros e He. split; step_call; rewrite He, Hflag; reflexivity.
  - intros r items Hok Hc%has_content_cons Hd [v Hv].
    split; step_call; rewrite Hok, Hc, Hd; cbn; rewrite Hv; cbn; rewrite Hflag;
      reflexivity.
Qed.

Lemma suppressed_mode_returns_witness :
  truthy (Some false) = false /\
  is_RequestException (RequestException "ConnectTimeout") = true /\
  (call demo [inl (RequestException "ConnectTimeout")]
        (post_req "/mjai/stop" None (Some false))).2 = Returned PNone /\
  (call demo [inr (stub 429 (PDict [("error", PStr "rate limited")]))]
        (post_req "/mjai/stop" None (Some false))).2 =
    Returned (PDict [("error", PStr "rate limited")]).
Proof.
  split; [reflexivity|]. split; [reflexivity|].
  split.
  - destruct (suppressed_mode_returns demo [] "/mjai/stop" None (Some false) eq_refl)
      as (H & _).
    apply (H (RequestException "ConnectTimeout") eq_refl).
  - destruct (suppressed_mode_returns demo [] "/mjai/stop" None (Some false) eq_refl)
      as (_ & H).
    apply (H (stub 429 (PDict [("error", PStr "rate limited")]))
             [("error", PStr "rate limited")]);
      [reflexivity|vm_compute; discriminate|reflexivity|eexists; reflexivity].
Defined.

(** X3.  A failure of the transport is raised again unchanged by both helpers
    when [raise_error] is true, and in every mode when it is not a
    [RequestException]; the lock is free afterwards. *)
Theorem transport_failure_raised (c : MjapiClient) (rest : list reply)
    (path : string) (body : option pyval) (raise_error : option bool) (e : exn) :
  truthy raise_error = true \/ is_RequestException e = false ->
  call c (inl e :: rest) (post_req path body raise_error) =
    (mkWorld c false rest
       [Acquired;
        Sent (mkRequest POST (base_url c ++ path) body (headers c) (timeout c));
        Released],
     Raised e) /\
  call c (inl e :: rest) (get_req path raise_error) =
    (mkWorld c false rest
       [Acquired;
        Sent (mkRequest GET (base_url c ++ path) None (headers c) (timeout c));
        Released],
     Raised e).
Proof.
  intros [Hflag|He]; split; step_call.
  - rewrite Hflag. destruct (is_RequestException e); reflexivity.
  - rewrite Hflag. destruct (is_RequestException e); reflexivity.
  - rewrite He. reflexivity.
  - rewrite He. reflexivity.
Qed.

Lemma transport_failure_raised_witness :
  (truthy (Some true) = true \/ is_RequestException (RequestException "ReadTimeout") = false) /\
  (call demo [inl (RequestException "ReadTimeout")]
        (get_req "/user" (Some true))).2 = Raised (RequestException "ReadTimeout").
Proof.
  split; [left; reflexivity|].
  destruct (transport_failure_raised demo [] "/user" None (Some true)
              (RequestException "ReadTimeout") (or_introl eq_refl)) as (_ & H).
  exact (f_equal snd H).
Defined.

(** X4.  In the raising mode a body that cannot be decoded makes both helpers
    raise the decoder's [JSONDecodeError]: an error status with an empty body
    (the [error] test decodes without looking at [content]), and any status
    with a non-empty body that is not JSON. *)
Theorem undecodable_body_raises (c : MjapiClient) (rest : list reply) (r : Response)
    (path : string) (body : option pyval) (raise_error : option bool) :
  truthy raise_error = true ->
  (ok r = false /\ content r = []) \/ (content r <> [] /\ decoded r = None) ->
  (call c (inr r :: rest) (post_req path body raise_error)).2 = Raised JSONDecodeError /\
  (call c (inr r :: rest) (get_req path raise_error)).2 = Raised JSONDecodeError.
Proof.
  intros Hflag [[Hok Hc%has_content_nil]|[Hc%has_content_cons Hd]]; split; step_call.
  - rewrite Hok, Hc. cbn. rewrite Hflag. reflexivity.
  - rewrite Hok, Hc. cbn. rewrite Hflag. reflexivity.
  - rewrite Hc, Hd. destruct (ok r); cbn; rewrite Hflag; reflexivity.
  - rewrite Hc, Hd. destruct (ok r); cbn; rewrite Hflag; reflexivity.
Qed.

Lemma undecodable_body_raises_witness :
  truthy (Some true) = true /\
  ((ok (stub_empty 503) = false /\ content (stub_empty 503) = []) \/
   (content (stub_empty 503) <> [] /\ decoded (stub_empty 503) = None)) /\
  (call demo [inr (stub_empty 503)] (post_req "/mjai/start" None (Some true))).2 =
    Raised JSONDecodeError.
Proof.
  split; [reflexivity|]. split; [left; split; reflexivity|].
  apply (undecodable_body_raises demo [] (stub_empty 503) "/mjai/start" None (Some true)
           eq_refl (or_introl (conj eq_refl eq_refl))).
Defined.

(** ** The credentials over a whole session *)

Lemma set_bearer_agree (c : MjapiClient) (t : pyval) :
  credentials_agree c ->
  credentials_agree
    (mkClient (base_url c) (timeout c) t
              (<["Authorization" := [Lit "Bearer "; Fmt t]]> (headers c))).
Proof.
  intros [[_ Hh]|Hh]; right; cbn; rewrite Hh.
  - apply insert_empty.
  - apply insert_singleton_eq.
Qed.

Ltac credential_done :=
  split; [first [left; reflexivity | right; eexists; reflexivity]|reflexivity].

(** A call either leaves the client as it was or installs one token through
    [set_bearer_token]; it ends with the lock free. *)
Lemma op_credentials (o : op) (w : world) :
  locked w = false ->
  (self (run (method_of o) w).1 = self w \/
   exists t, self (run (method_of o) w).1 =
             mkClient (base_url (self w)) (timeout (self w)) t
                      (<["Authorization" := [Lit "Bearer "; Fmt t]]> (headers (self w)))) /\
  locked (run (method_of o) w).1 = false.
Proof.
  intros Hl. destruct (sets_credentials o) eqn:Ho.
  - destruct w as [c lk script lg]. cbn in Hl. subst lk.
    destruct o; try discriminate Ho; clear Ho;
      unfold method_of, login, trial, set_temp_user;
      step_call; crunch_with credential_done.
  - destruct (op_frame o w Ho Hl) as (Hs & Hlk & _).
    split; [left; exact Hs|exact Hlk].
Qed.

(** X5.  Starting from a new client, after any calls whatever and any
    answers, the token and the [Authorization] header agree ([headers] is
    empty with no token, and otherwise holds exactly the bearer header of the
    current token), and the base address and the timeout are those given at
    construction. *)
Theorem credentials_agree_always (url : string) (t : Q) (os : list op) (script : list reply) :
  credentials_agree (self (session os (mkWorld (init url t) false script []))) /\
  base_url (self (session os (mkWorld (init url t) false script []))) = url /\
  timeout (self (session os (mkWorld (init url t) false script []))) = t.
Proof.
  assert (H : forall w, locked w = false -> credentials_agree (self w) ->
                        credentials_agree (self (session os w)) /\
                        base_url (self (session os w)) = base_url (self w) /\
                        timeout (self (session os w)) = timeout (self w)).
  { induction os as [|o os IH]; intros w Hl Hc; cbn; [done|].
    destruct (op_credentials o w Hl) as ([Hs|[tok Hs]] & Hl').
    - destruct (IH _ Hl') as (H1 & H2 & H3); [rewrite Hs; exact Hc|].
      rewrite Hs in H2, H3. done.
    - destruct (IH _ Hl') as (H1 & H2 & H3).
      { rewrite Hs. apply set_bearer_agree, Hc. }
      rewrite Hs in H2, H3. done. }
  apply (H (mkWorld (init url t) false script [])); [reflexivity|].
  left. split; reflexivity.
Qed.

(** X6.  Calls other than [login], [trial] and [set_temp_user] never touch
    the client: after any number of them, [logout] among them, the token and
    the headers are what they were, whatever the server answered. *)
Theorem other_calls_keep_client (os : list op) (c : MjapiClient) (script : list reply) :
  forallb (fun o => negb (sets_credentials o)) os = true ->
  self (session os (mkWorld c false script [])) = c.
Proof.
  intros Hos.
  destruct (session_frame os (mkWorld c false script []) Hos eq_refl) as (Hs & _).
  exact Hs.
Qed.

Lemma other_calls_keep_client_witness :
  forallb (fun o => negb (sets_credentials o)) [OpLogout; OpGetLimit; OpStopBot] = true /\
  self (session [OpLogout; OpGetLimit; OpStopBot]
          (mkWorld (mkClient "https://mjapi.example" (5 # 1) (PStr "tok123")
                             {[ "Authorization" := [Lit "Bearer "; Fmt (PStr "tok123")] ]})
                   false [inr (stub_empty 200); inr (stub_empty 500)] [])) =
    mkClient "https://mjapi.example" (5 # 1) (PStr "tok123")
             {[ "Authorization" := [Lit "Bearer "; Fmt (PStr "tok123")] ]}.
Proof.
  split; [reflexivity|].
  apply (other_calls_keep_client [OpLogout; OpGetLimit; OpStopBot]). reflexivity.
Defined.

(** X7.  [set_temp_user] talks to nobody: it returns [None] with nothing
    observed on the lock or the connection, the token is the one given, the
    [Authorization] header is its bearer header and every other header is
    untouched; a second [set_temp_user] wipes out the first. *)
Theorem set_temp_user_installs (c : MjapiClient) (script : list reply) (t : pyval) :
  let w := (call c script (set_temp_user t)).1 in
  (call c script (set_temp_user t)).2 = Returned PNone /\
  log w = [] /\ wire w = script /\ locked w = false /\
  token (self w) = t /\
  headers (self w) !! "Authorization" = Some [Lit "Bearer "; Fmt t] /\
  (forall name, name <> "Authorization" -> headers (self w) !! name = headers c !! name) /\
  (forall t0, session [OpSetTempUser t0; OpSetTempUser t] (mkWorld c false script []) = w).
Proof.
  cbn. repeat split.
  - apply lookup_insert_eq.
  - intros name Hn. apply lookup_insert_ne. congruence.
  - intros t0. rewrite insert_insert_eq. reflexivity.
Qed.

(** X8.  [trial] answered HTTP-ok with a JSON object holding [id] posts the
    fixed trial code once, with the headers the client had before, and
    returns [None] with the token and bearer header installed. *)
Theorem trial_installs_bearer (c : MjapiClient) (rest : list reply) (r : Response)
    (items : list (string * pyval)) (tok : pyval) :
  ok r = true ->
  content r <> [] ->
  decoded r = Some (PDict items) ->
  dict_get "id" items = Some tok ->
  call c (inr r :: rest) trial =
    (mkWorld (mkClient (base_url c) (timeout c) tok
                       (<["Authorization" := [Lit "Bearer "; Fmt tok]]> (headers c)))
             false rest
             [Acquired;
              Sent (mkRequest POST (base_url c ++ "/user/trial")
                      (Some (PDict [("code",
                                     PStr "FREE_TRIAL_SPONSORED_BY_MJAPI_DiscordID_9ns4esyx")]))
                      (headers c) (timeout c));
              Released],
     Returned PNone).
Proof.
  intros Hok Hc%has_content_cons Hd Hi.
  unfold trial. step_call. rewrite Hok, Hc, Hd. cbn. rewrite Hi. reflexivity.
Qed.

Lemma trial_installs_bearer_witness :
  ok (stub 200 (PDict [("id", PStr "trial-7")])) = true /\
  dict_get "id" [("id", PStr "trial-7")] = Some (PStr "trial-7") /\
  token (self (call demo [inr (stub 200 (PDict [("id", PStr "trial-7")]))] trial).1) =
    PStr "trial-7".
Proof.
  split; [reflexivity|]. split; [reflexivity|].
  exact (f_equal (fun x => token (self x.1))
           (trial_installs_bearer demo [] (stub 200 (PDict [("id", PStr "trial-7")]))
              [("id", PStr "trial-7")] (PStr "trial-7") eq_refl
              ltac:(vm_compute; discriminate) eq_refl eq_refl)).
Defined.

(** ** One round trip per call *)

(** X9.  Whatever the transport does, a call makes at most one round trip and
    never a second attempt: the calls that go on the wire take the lock, send
    one request of their method to their path under the base address, with
    their body and the client's headers and timeout, drop the lock and use up
    one reply; the others ([set_temp_user], [close], a [batch] that finds no
    [seq]) send nothing and use up none. *)
Theorem one_round_trip (o : op) (c : MjapiClient) (script : list reply) :
  let w := (call c script (method_of o)).1 in
  match wire_request o with
  | Some (m, path, body) =>
      log w = [Acquired;
               Sent (mkRequest m (base_url c ++ path) body (headers c) (timeout c));
               Released] /\
      wire w = tail script
  | None =>
      (forall rq, Sent rq ∉ log w) /\ wire w = script
  end.
Proof.
  destruct o; cbn [wire_request];
    unfold method_of, register, login, trial, set_temp_user, get_user_info, logout,
      list_models, get_usage, get_limit, start_bot, stop_bot, act, close.
  all: try solve [step_call; crunch_with ltac:(done)].
  - cbn. split; [|reflexivity]. intros rq Hin. apply elem_of_nil in Hin. exact Hin.
  - unfold batch_seq, batch, py_last.
    destruct actions as [|a actions].
    { cbn. split; [|reflexivity]. intros rq Hin. apply elem_of_nil in Hin. exact Hin. }
    cbn [length Nat.eqb].
    destruct (last (a :: actions)) as [l|] eqn:Hl; cbn.
    + destruct l; cbn;
        try (split; [intros rq Hin; apply elem_of_nil in Hin; exact Hin|reflexivity]).
      destruct (dict_get "seq" items) eqn:Hs; cbn.
      * step_call. crunch_with ltac:(done).
      * split; [intros rq Hin; apply elem_of_nil in Hin; exact Hin|reflexivity].
    + split; [intros rq Hin; apply elem_of_nil in Hin; exact Hin|reflexivity].
  - cbn. split; [|reflexivity]. intros rq Hin.
    apply elem_of_cons in Hin as [Hin|Hin]; [discriminate|].
    apply elem_of_nil in Hin. exact Hin.
Qed.

(** ** What the queries hand back *)

(** X10.  The calls that return what their helper returned give back, on an
    HTTP-ok answer, the decoded body as it is, whatever JSON value it holds,
    and [None] for an empty body. *)
Theorem raw_body_returned (o : op) (c : MjapiClient) (rest : list reply) (r : Response) :
  returns_raw o = true ->
  ok r = true ->
  (content r = [] -> (call c (inr r :: rest) (method_of o)).2 = Returned PNone) /\
  (forall j, content r <> [] -> decoded r = Some j ->
             (call c (inr r :: rest) (method_of o)).2 = Returned j).
Proof.
  intros Ho Hok. split.
  - intros Hc%has_content_nil.
    destruct o; try discriminate Ho;
      unfold method_of, register, get_user_info, logout, get_limit, start_bot, stop_bot;
      step_call; rewrite Hok, Hc; reflexivity.
  - intros j Hc%has_content_cons Hd.
    destruct o; try discriminate Ho;
      unfold method_of, register, get_user_info, logout, get_limit, start_bot, stop_bot;
      step_call; rewrite Hok, Hc, Hd; reflexivity.
Qed.

Lemma raw_body_returned_witness :
  returns_raw (OpRegister (PStr "alice")) = true /\
  ok (stub 200 (PDict [("secret", PStr "s3cr3t")])) = true /\
  (call demo [inr (stub 200 (PDict [("secret", PStr "s3cr3t")]))]
        (method_of (OpRegister (PStr "alice")))).2 =
    Returned (PDict [("secret", PStr "s3cr3t")]).
Proof.
  split; [reflexivity|]. split; [reflexivity|].
  destruct (raw_body_returned (OpRegister (PStr "alice")) demo []
              (stub 200 (PDict [("secret", PStr "s3cr3t")])) eq_refl eq_refl) as (_ & H).
  apply H; [vm_compute; discriminate|reflexivity].
Defined.

(** X11.  [list_models] and [get_usage] unwrap one field of an HTTP-ok
    answer: the value under [models], respectively [used], of the JSON
    object; a [KeyError] when the object has no such key; and a [TypeError]
    when the body is empty, since [None] cannot be subscripted. *)
Theorem unwrap_field (c : MjapiClient) (rest : list reply) (r : Response) :
  ok r = true ->
  (forall items v, content r <> [] -> decoded r = Some (PDict items) ->
     (dict_get "models" items = Some v ->
      (call c (inr r :: rest) list_models).2 = Returned v) /\
     (dict_get "models" items = None ->
      (call c (inr r :: rest) list_models).2 = Raised (KeyError "models")) /\
     (dict_get "used" items = Some v ->
      (call c (inr r :: rest) get_usage).2 = Returned v) /\
     (dict_get "used" items = None ->
      (call c (inr r :: rest) get_usage).2 = Raised (KeyError "used"))) /\
  (content r = [] ->
     (call c (inr r :: rest) list_models).2 =
       Raised (TypeError "'NoneType' object is not subscriptable") /\
     (call c (inr r :: rest) get_usage).2 =
       Raised (TypeError "'NoneType' object is not subscriptable")).
Proof.
  intros Hok. split.
  - intros items v Hc%has_content_cons Hd.
    repeat split; intros Hk; unfold list_models, get_usage; step_call;
      rewrite Hok, Hc, Hd; cbn; rewrite Hk; reflexivity.
  - intros Hc%has_content_nil.
    split; unfold list_models, get_usage; step_call; rewrite Hok, Hc; reflexivity.
Qed.

Lemma unwrap_field_witness :
  ok (stub 200 (PDict [("used", PInt 42)])) = true /\
  (call demo [inr (stub 200 (PDict [("used", PInt 42)]))] get_usage).2 = Returned (PInt 42) /\
  (call demo [inr (stub 200 (PDict [("used", PInt 42)]))] list_models).2 =
    Raised (KeyError "models").
Proof.
  split; [reflexivity|].
  destruct (unwrap_field demo [] (stub 200 (PDict [("used", PInt 42)])) eq_refl) as (H & _).
  destruct (H [("used", PInt 42)] (PInt 42) ltac:(vm_compute; discriminate) eq_refl)
    as (_ & Hm & Hu & _).
  split; [apply Hu; reflexivity|apply Hm; reflexivity].
Defined.

(** X12.  [get_usage] and [get_limit] ask [get_req] not to raise.  When the
    transport fails with a [RequestException], [get_limit] returns [None],
    and [get_usage] raises a [TypeError] because it subscripts that [None];
    answered with an error object, [get_usage] returns the value under [used]
    if the error object happens to have one. *)
Theorem quiet_queries_on_failure (c : MjapiClient) (rest : list reply) :
  (forall e, is_RequestException e = true ->
     (call c (inl e :: rest) get_limit).2 = Returned PNone /\
     (call c (inl e :: rest) get_usage).2 =
       Raised (TypeError "'NoneType' object is not subscriptable")) /\
  (forall r items message v,
     ok r = false -> content r <> [] -> decoded r = Some (PDict items) ->
     dict_get "error" items = Some message ->
     dict_get "used" items = Some v ->
     (call c (inr r :: rest) get_usage).2 = Returned v).
Proof.
  split.
  - intros e He. split; unfold get_limit, get_usage; step_call; rewrite He; reflexivity.
  - intros r items message v Hok Hc%has_content_cons Hd He Hu.
    unfold get_usage. step_call. rewrite Hok, Hc, Hd. cbn. rewrite He. cbn.
    rewrite Hu. reflexivity.
Qed.

Lemma quiet_queries_on_failure_witness :
  is_RequestException (RequestException "ConnectionError") = true /\
  (call demo [inl (RequestException "ConnectionError")] get_limit).2 = Returned PNone /\
  (call demo [inl (RequestException "ConnectionError")] get_usage).2 =
    Raised (TypeError "'NoneType' object is not subscriptable").
Proof.
  split; [reflexivity|].
  destruct (quiet_queries_on_failure demo []) as (H & _).
  apply (H (RequestException "ConnectionError") eq_refl).
Defined.

(** ** The action query off the beaten path *)

(** X13.  [_post_act] has no handler of its own: when the transport raises,
    whatever it raises, [act] and a [batch] on the wire raise the same, with
    the lock dropped, the client untouched and one reply used up. *)
Theorem action_query_transport_failure (c : MjapiClient) (rest : list reply) (e : exn)
    (q : prog pyval) :
  action_query q ->
  (call c (inl e :: rest) q).2 = Raised e /\
  locked (call c (inl e :: rest) q).1 = false /\
  self (call c (inl e :: rest) q).1 = c /\
  wire (call c (inl e :: rest) q).1 = rest.
Proof.
  intros Hq. destruct (action_query_post q Hq) as (path & seq & body & ->).
  step_call. done.
Qed.

Lemma action_query_transport_failure_witness :
  action_query (act (PInt 5) dahai) /\
  (call demo [inl (RequestException "ReadTimeout")] (act (PInt 5) dahai)).2 =
    Raised (RequestException "ReadTimeout").
Proof.
  split; [apply aq_act|].
  apply (action_query_transport_failure demo [] (RequestException "ReadTimeout")
           (act (PInt 5) dahai) (aq_act _ _)).
Defined.

(** X14.  A non-empty body that is not a JSON object or array trips the
    action query on every status: text that does not decode raises the
    decoder's [JSONDecodeError], and a decoded [null], boolean or number
    raises [TypeError] at the membership test, on status 200 as on any
    other. *)
Theorem action_query_odd_body (c : MjapiClient) (rest : list reply) (r : Response)
    (q : prog pyval) :
  action_query q ->
  content r <> [] ->
  (decoded r = None -> (call c (inr r :: rest) q).2 = Raised JSONDecodeError) /\
  (forall j, decoded r = Some j -> is_scalar j = true ->
             exists what, (call c (inr r :: rest) q).2 = Raised (TypeError what)).
Proof.
  intros Hq Hc%has_content_cons.
  destruct (action_query_post q Hq) as (path & seq & body & ->).
  split.
  - intros Hd. step_call. rewrite Hc, Hd. reflexivity.
  - intros j Hd Hj. step_call. rewrite Hc, Hd. cbn.
    destruct (status_code r =? 200)%Z; destruct j; try discriminate Hj; cbn;
      eexists; reflexivity.
Qed.

Lemma action_query_odd_body_witness :
  action_query (act (PInt 5) dahai) /\
  content (stub 200 PNone) <> [] /\
  is_scalar PNone = true /\
  exists what,
    (call demo [inr (stub 200 PNone)] (act (PInt 5) dahai)).2 = Raised (TypeError what).
Proof.
  split; [apply aq_act|]. split; [vm_compute; discriminate|]. split; [reflexivity|].
  destruct (action_query_odd_body demo [] (stub 200 PNone) (act (PInt 5) dahai)
              (aq_act _ _) ltac:(vm_compute; discriminate)) as (_ & H).
  apply (H PNone eq_refl eq_refl).
Defined.

(** X15.  [login] and [trial] test ['id' in res_json] on whatever JSON came
    back.  When an HTTP-ok answer is a JSON string, the test is a substring
    test: a string without "id" in it gives the [AuthenticationError], and a
    string with "id" anywhere in it gives a [TypeError] from the subscript;
    either way the client is as it was. *)
Theorem login_string_body (c : MjapiClient) (rest : list reply) (r : Response)
    (name secret : pyval) (s : string) :
  ok r = true ->
  content r <> [] ->
  decoded r = Some (PStr s) ->
  (substring_of "id" s = false ->
   (call c (inr r :: rest) (login name secret)).2 = Raised (AuthenticationError (PStr s)) /\
   (call c (inr r :: rest) trial).2 = Raised (AuthenticationError (PStr s))) /\
  (substring_of "id" s = true ->
   exists what,
     (call c (inr r :: rest) (login name secret)).2 = Raised (TypeError what) /\
     (call c (inr r :: rest) trial).2 = Raised (TypeError what)) /\
  self (call c (inr r :: rest) (login name secret)).1 = c /\
  self (call c (inr r :: rest) trial).1 = c.
Proof.
  intros Hok Hc%has_content_cons Hd.
  unfold login, trial. step_call. rewrite Hok, Hc, Hd. cbn.
  destruct (substring_of "id" s); cbn; repeat split; try done.
  intros _. eexists. split; reflexivity.
Qed.

Lemma login_string_body_witness :
  ok (stub 200 (PStr "invalid credentials")) = true /\
  content (stub 200 (PStr "invalid credentials")) <> [] /\
  substring_of "id" "invalid credentials" = true /\
  exists what,
    (call demo [inr (stub 200 (PStr "invalid credentials"))]
          (login (PStr "alice") (PStr "s3cr3t"))).2 = Raised (TypeError what) /\
    (call demo [inr (stub 200 (PStr "invalid credentials"))] trial).2 =
      Raised (TypeError what).
Proof.
  split; [reflexivity|]. split; [vm_compute; discriminate|]. split; [reflexivity|].
  destruct (login_string_body demo [] (stub 200 (PStr "invalid credentials"))
              (PStr "alice") (PStr "s3cr3t") "invalid credentials" eq_refl
              ltac:(vm_compute; discriminate) eq_refl) as (_ & H & _).
  exact (H eq_refl).
Defined.

(** ** No deadlock *)

Lemma thread_can_step (c : MjapiClient) (lk : bool) (t : thread) :
  finished t = false ->
  lk = false \/ thread_ok true t ->
  exists c' lk' t', thread_step c lk t c' lk' t'.
Proof.
  destruct t as [[p|rq k] os]; unfold finished, thread_ok; cbn.
  - destruct p as [v|e|X ev k].
    + destruct os as [|o os]; [discriminate|]. intros _ _.
      eexists _, _, _. apply ts_returned.
    + destruct os as [|o os]; [discriminate|]. intros _ _.
      eexists _, _, _. apply ts_raised.
    + intros _ Hl. destruct ev; cbn in Hl.
      * destruct Hl as [->|[Hf _]]; [|discriminate].
        eexists _, _, _. apply ts_acquire.
      * eexists _, _, _. apply ts_release.
      * eexists _, _, _. apply ts_send.
      * eexists _, _, _. apply ts_close.
      * eexists _, _, _. apply ts_read.
      * eexists _, _, _. apply ts_write_token.
      * eexists _, _, _. apply ts_write_header.
  - intros _ _. eexists _, _, _.
    apply (ts_receive c lk rq k (inl (RequestException "Timeout"))).
Qed.

Lemma exists_unfinished (ts : list thread) :
  forallb finished ts = false ->
  exists ts1 t ts2, ts = (ts1 ++ t :: ts2)%list /\ finished t = false.
Proof.
  induction ts as [|t ts IH]; cbn; [discriminate|].
  destruct (finished t) eqn:Ht; cbn.
  - intros (ts1 & t' & ts2 & -> & Hf)%IH. exists (t :: ts1), t', ts2. done.
  - intros _. exists [], t, ts. done.
Qed.

Lemma exists_holder (holders : list bool) (ts : list thread) :
  Forall2 thread_ok holders ts ->
  count id holders <> 0%nat ->
  exists ts1 t ts2, ts = (ts1 ++ t :: ts2)%list /\ thread_ok true t.
Proof.
  induction 1 as [|h t hs ts Hok _ IH]; cbn; [done|].
  destruct h; cbn.
  - intros _. exists [], t, ts. done.
  - intros (ts1 & t' & ts2 & -> & Hh)%IH. exists (t :: ts1), t', ts2. done.
Qed.

Lemma holder_unfinished (t : thread) : thread_ok true t -> finished t = false.
Proof.
  destruct t as [[p|rq k] os]; unfold finished, thread_ok; cbn; [|done].
  destruct p; cbn; try done.
Qed.

(** X16.  The lock never wedges the callers: in every state that the threads
    can reach, either every thread has finished all its calls, or some thread
    can take a step.  A thread waiting for the lock waits for a holder that
    is itself able to go on. *)
Theorem no_deadlock (c : MjapiClient) (workloads : list (list op)) (s : system) :
  rtc step (start c workloads) s ->
  forallb finished (threads s) = true \/ exists s', step s s'.
Proof.
  intros Hr.
  destruct (lock_invariant_reachable c workloads s Hr) as (holders & Hall & Hcount).
  destruct s as [c' lk ts]. cbn in *.
  assert (Hgo : forall ts1 t ts2,
             ts = (ts1 ++ t :: ts2)%list -> finished t = false ->
             lk = false \/ thread_ok true t ->
             exists s', step (mkSystem c' lk ts) s').
  { intros ts1 t ts2 -> Hf Hl.
    destruct (thread_can_step c' lk t Hf Hl) as (c'' & lk' & t' & Hstep).
    eexists. apply step_thread, Hstep. }
  destruct lk; cbn in Hcount.
  - right. destruct (exists_holder holders ts Hall) as (ts1 & t & ts2 & Hts & Hh); [lia|].
    apply (Hgo ts1 t ts2 Hts); [apply holder_unfinished, Hh|right; exact Hh].
  - destruct (forallb finished ts) eqn:Hfin; [left; reflexivity|right].
    destruct (exists_unfinished ts Hfin) as (ts1 & t & ts2 & Hts & Hf).
    apply (Hgo ts1 t ts2 Hts Hf). left. reflexivity.
Qed.

Lemma no_deadlock_witness :
  rtc step (start demo [[OpGetUserInfo]; [OpAct (PInt 5) dahai]])
           (start demo [[OpGetUserInfo]; [OpAct (PInt 5) dahai]]) /\
  (forallb finished (threads (start demo [[OpGetUserInfo]; [OpAct (PInt 5) dahai]])) = true \/
   exists s', step (start demo [[OpGetUserInfo]; [OpAct (PInt 5) dahai]]) s').
Proof.
  split; [apply rtc_refl|].
  apply (no_deadlock demo [[OpGetUserInfo]; [OpAct (PInt 5) dahai]]). apply rtc_refl.
Defined.

Lemma between_calls_no_hold (holders : list bool) (ts : list thread) :
  Forall2 thread_ok holders ts ->
  forallb between_calls ts = true ->
  count id holders = 0%nat.
Proof.
  induction 1 as [|h t hs ts Hok _ IH]; cbn; [done|].
  intros [Ht Hts]%andb_true_iff. rewrite (IH Hts).
  destruct t as [[p|rq k] os]; unfold between_calls, thread_ok in *; cbn in *; [|done].
  destruct p; cbn in *; try done; subst h; reflexivity.
Qed.

(** X17.  The lock is never held across calls: in every reachable state in
    which all threads are between calls, having returned or raised, the lock
    is free; so it is when every thread has finished. *)
Theorem lock_free_between_calls (c : MjapiClient) (workloads : list (list op)) (s : system) :
  rtc step (start c workloads) s ->
  forallb between_calls (threads s) = true ->
  lock_held s = false.
Proof.
  intros Hr Hb.
  destruct (lock_invariant_reachable c workloads s Hr) as (holders & Hall & Hcount).
  rewrite (between_calls_no_hold holders (threads s) Hall Hb) in Hcount.
  destruct (lock_held s); [discriminate|reflexivity].
Qed.

Lemma lock_free_between_calls_witness :
  exists s,
    rtc step (start demo [[OpAct (PInt 5) dahai]; []]) s /\
    forallb between_calls (threads s) = true /\
    todo <$> threads s = [[]; []] /\
    lock_held s = false.
Proof.
  assert (H : exists s, rtc step (start demo [[OpAct (PInt 5) dahai]; []]) s /\
                        forallb between_calls (threads s) = true /\
                        todo <$> threads s = [[]; []]).
  { eexists. split.
    - unfold start. cbn [map].
      eapply rtc_l; [apply (step_thread _ _ [] _ [_]); apply ts_returned|].
      eapply rtc_l; [apply (step_thread _ _ [] _ [_]); apply ts_acquire|].
      eapply rtc_l; [apply (step_thread _ _ [] _ [_]); apply ts_read|].
      eapply rtc_l; [apply (step_thread _ _ [] _ [_]); apply ts_read|].
      eapply rtc_l; [apply (step_thread _ _ [] _ [_]); apply ts_send|].
      eapply rtc_l; [apply (step_thread _ _ [] _ [_]);
                     apply (ts_receive _ _ _ _ (inr (stub_empty 200)))|].
      eapply rtc_l; [apply (step_thread _ _ [] _ [_]); apply ts_release|].
      apply rtc_refl.
    - split; reflexivity. }
  destruct H as (s & Hr & Hb & Ht). exists s.
  split; [exact Hr|]. split; [exact Hb|]. split; [exact Ht|].
  apply (lock_free_between_calls demo [[OpAct (PInt 5) dahai]; []] s Hr Hb).
Defined.

Lemma set_temp_user_installs_witness :
  "Accept" <> "Authorization" /\
  headers (self (call (mkClient "https://mjapi.example" (5 # 1) PNone
                                {[ "Accept" := [Lit "application/json"] ]})
                      [] (set_temp_user (PStr "tok123"))).1) !! "Accept" =
    Some [Lit "application/json"] /\
  headers (self (call (mkClient "https://mjapi.example" (5 # 1) PNone
                                {[ "Accept" := [Lit "application/json"] ]})
                      [] (set_temp_user (PStr "tok123"))).1) !! "Authorization" =
    Some [Lit "Bearer "; Fmt (PStr "tok123")].
Proof.
  split; [discriminate|].
  destruct (set_temp_user_installs
              (mkClient "https://mjapi.example" (5 # 1) PNone
                        {[ "Accept" := [Lit "application/json"] ]})
              [] (PStr "tok123")) as (_ & _ & _ & _ & _ & Ha & Ho & _).
  split; [|exact Ha].
  exact (eq_trans (Ho "Accept" ltac:(discriminate)) eq_refl).
Defined.
